(** * Sharp IoT component: the device status protocol core

    A shallow embedding of the Python sources
    - [sharp_core/states.py]            (enumerations, sensor bucketing),
    - [sharp_devices/device_control.py] (commands, operations, the F3 encoder),
    - [sharp_devices/device_properties.py] (the F1/F2/F3 decoders),
    - [sharp_devices/operations.py]     (the submit-and-poll loop),
    followed by the properties of the design specification proved about it.

    Conventions of the embedding.
    - A Python [int] is a [Z]; [len] returns a [Z].
    - A Python [str] is a [string]; a character is an [ascii], i.e. a code
      point below 256.
    - A Python [bytes] value is a [list Z] of numbers in [0, 256).
    - A function that can raise returns a [result]; the exception carries the
      structured content of its message.
    - A JSON object read with [.get(key, default)] is a record whose fields
      are options: [None] is an absent key. *)

From Stdlib Require Import ZArith Lia Ascii String.
From stdpp Require Import base list strings gmap.

Local Open Scope Z_scope.

(* ================================================================== *)
(** * Python runtime: exceptions, strings, lists, bytes *)
(* ================================================================== *)

(** The text of a [ValueError], kept structured. *)
Inductive value_error : Type :=
  | HeaderLength (got : Z)
      (* "Header must be exactly 8 characters, got {len(header)}" *)
  | PositionRange (position : Z)
      (* "Payload position must be between 0 and 45, got {position}" *)
  | ExceedsBoundary (position : Z)
      (* "Value at position {position} exceeds payload boundary" *)
  | EmptyOperationList
      (* "OperationList must contain at least one command" *)
  | F3Length (got : Z)
      (* "F3 property must be 54 characters long, got {len(hex_string)}" *)
  | NotAValid (enum value : string)
      (* "'{value}' is not a valid {enum}", raised by [Enum.__call__] *)
  | NonHexadecimal
      (* "non-hexadecimal number found in fromhex() arg" *).

Inductive exn : Type :=
  | ValueError (why : value_error)
  | IndexError.

Inductive result (A : Type) : Type :=
  | Ok (a : A)
  | Raise (e : exn).
Arguments Ok {A} a.
Arguments Raise {A} e.

Global Instance result_ret : MRet result := @Ok.
Global Instance result_bind : MBind result := λ A B f m,
  match m with
  | Ok a => f a
  | Raise e => Raise e
  end.

(** [raises m] : the call ended in an exception. *)
Definition raises {A} (m : result A) : Prop :=
  match m with Ok _ => False | Raise _ => True end.

(** A list comprehension [[f(x) for x in l]] whose body can raise. *)
Fixpoint comprehension {A B} (f : A → result B) (l : list A) : result (list B) :=
  match l with
  | [] => Ok []
  | x :: l' => y ← f x; ys ← comprehension f l'; Ok (y :: ys)
  end.

Module Py.

(** [len(s)] *)
Definition len (s : string) : Z := Z.of_nat (String.length s).

(** Slice bounds: a negative index counts from the end, and both ends are
    clamped to [0, n]. *)
Definition clamp (n i : Z) : Z :=
  if i <? 0 then Z.max 0 (i + n) else Z.min i n.

(** [s[start:stop]] *)
Definition slice (s : string) (start stop : Z) : string :=
  let a := clamp (len s) start in
  let b := clamp (len s) stop in
  substring (Z.to_nat a) (Z.to_nat (b - a)) s.

(** [s[start:]] *)
Definition slice_from (s : string) (start : Z) : string :=
  slice s start (len s).

(** [s[i]], for [0 <= i]; [None] stands for [IndexError]. *)
Definition getitem (s : string) (i : Z) : option ascii :=
  if i <? 0 then None else String.get (Z.to_nat i) s.

(** [l[i] = x] on a list: a negative index counts from the end, and an
    index outside the list raises [IndexError]. *)
Definition setitem {A} (l : list A) (i : Z) (x : A) : result (list A) :=
  let n := Z.of_nat (length l) in
  let j := if i <? 0 then i + n else i in
  if (0 <=? j) && (j <? n) then Ok (<[Z.to_nat j := x]> l)
  else Raise IndexError.

(** [''.join(chars)] *)
Definition join (chars : list ascii) : string := string_of_list_ascii chars.

(** [c.isspace()] for a code point below 256: 9-13, 28-32, 0x85, 0xA0. *)
Definition isspace (c : ascii) : bool :=
  let n := Z.of_nat (nat_of_ascii c) in
  ((9 <=? n) && (n <=? 13)) || ((28 <=? n) && (n <=? 32))
  || (n =? 133) || (n =? 160).

Fixpoint lstrip (s : string) : string :=
  match s with
  | String c s' => if isspace c then lstrip s' else s
  | EmptyString => EmptyString
  end.

Fixpoint rstrip (s : string) : string :=
  match s with
  | String c s' =>
      match rstrip s' with
      | EmptyString => if isspace c then EmptyString else String c EmptyString
      | r => String c r
      end
  | EmptyString => EmptyString
  end.

(** [s.strip()] *)
Definition strip (s : string) : string := rstrip (lstrip s).

(** [c.lower()] for a code point below 256: A-Z, and the Latin-1 capitals
    0xC0-0xDE without the multiplication sign 0xD7. *)
Definition lower_char (c : ascii) : ascii :=
  let n := Z.of_nat (nat_of_ascii c) in
  if ((65 <=? n) && (n <=? 90))
     || ((192 <=? n) && (n <=? 222) && negb (n =? 215))
  then ascii_of_nat (Z.to_nat (n + 32)) else c.

(** [s.lower()] *)
Fixpoint lower (s : string) : string :=
  match s with
  | String c s' => String (lower_char c) (lower s')
  | EmptyString => EmptyString
  end.

(** The value of a hexadecimal digit, in either case. *)
Definition hexdigit (c : ascii) : option Z :=
  let n := Z.of_nat (nat_of_ascii c) in
  if (48 <=? n) && (n <=? 57) then Some (n - 48)
  else if (65 <=? n) && (n <=? 70) then Some (n - 55)
  else if (97 <=? n) && (n <=? 102) then Some (n - 87)
  else None.

(** The ASCII white space that [bytes.fromhex] skips between two bytes. *)
Definition is_ascii_space (c : ascii) : bool :=
  let n := Z.of_nat (nat_of_ascii c) in
  ((9 <=? n) && (n <=? 13)) || (n =? 32).

(** [bytes.fromhex(s)]: pairs of hexadecimal digits, white space allowed
    between the pairs only; anything else raises [ValueError]. *)
Fixpoint fromhex (s : string) : result (list Z) :=
  match s with
  | EmptyString => Ok []
  | String c s' =>
      if is_ascii_space c then fromhex s'
      else
        match hexdigit c, s' with
        | Some top, String d s'' =>
            match hexdigit d with
            | Some bot => data ← fromhex s''; Ok ((top * 16 + bot) :: data)
            | None => Raise (ValueError NonHexadecimal)
            end
        | _, _ => Raise (ValueError NonHexadecimal)
        end
  end.

(** [data[start:stop]] on bytes, for constant bounds [0 <= start <= stop]. *)
Definition bytes_slice (data : list Z) (start stop : nat) : list Z :=
  take (stop - start)%nat (drop start data).

(** [int.from_bytes(data, 'big')] *)
Definition from_bytes_big (data : list Z) : Z :=
  fold_left (λ acc b, acc * 256 + b) data 0.

(** [int.from_bytes(data, 'little')] *)
Definition from_bytes_little (data : list Z) : Z :=
  fold_right (λ b acc, b + 256 * acc) 0 data.

End Py.

(* ================================================================== *)
(** * sharp_core/states.py *)
(* ================================================================== *)

(** Each [Enum] class is a module: the type [t], the member's [value], and
    the lookup by value [of_value] that [Cls(v)] performs (it raises
    [ValueError] when no member has that value). *)

Module PowerState.
Inductive t : Type := OFF | ON.
Definition value (s : t) : string :=
  match s with OFF => "00" | ON => "FF" end.
Definition of_value (v : string) : result t :=
  if String.eqb v "00" then Ok OFF
  else if String.eqb v "FF" then Ok ON
  else Raise (ValueError (NotAValid "PowerState" v)).
End PowerState.

Module OperatingMode.
Inductive t : Type :=
  OFF | LOW | MED | MAX | AUTO | POLLEN | ION_SHOWER | SLEEP | SHARP_LIFE_AIR.
Definition value (m : t) : string :=
  match m with
  | OFF => "00"
  | LOW => "14"
  | MED => "15"
  | MAX => "16"
  | AUTO => "10"
  | POLLEN => "13"
  | ION_SHOWER => "40"
  | SLEEP => "11"
  | SHARP_LIFE_AIR => "20"
  end.
Definition of_value (v : string) : result t :=
  if String.eqb v "00" then Ok OFF
  else if String.eqb v "14" then Ok LOW
  else if String.eqb v "15" then Ok MED
  else if String.eqb v "16" then Ok MAX
  else if String.eqb v "10" then Ok AUTO
  else if String.eqb v "13" then Ok POLLEN
  else if String.eqb v "40" then Ok ION_SHOWER
  else if String.eqb v "11" then Ok SLEEP
  else if String.eqb v "20" then Ok SHARP_LIFE_AIR
  else Raise (ValueError (NotAValid "OperatingMode" v)).
End OperatingMode.

Module HumidificationState.
Inductive t : Type := OFF | ON.
Definition value (s : t) : string :=
  match s with OFF => "00" | ON => "FF" end.
Definition of_value (v : string) : result t :=
  if String.eqb v "00" then Ok OFF
  else if String.eqb v "FF" then Ok ON
  else Raise (ValueError (NotAValid "HumidificationState" v)).
End HumidificationState.

Module LEDBrightnessState.
Inductive t : Type := OFF | DIM | AUTO.
Definition value (s : t) : string :=
  match s with OFF => "00" | DIM => "10" | AUTO => "F0" end.
Definition of_value (v : string) : result t :=
  if String.eqb v "00" then Ok OFF
  else if String.eqb v "10" then Ok DIM
  else if String.eqb v "F0" then Ok AUTO
  else Raise (ValueError (NotAValid "LEDBrightnessState" v)).
End LEDBrightnessState.

Module ChildLockState.
Inductive t : Type := OFF | ON.
Definition value (s : t) : string :=
  match s with OFF => "00" | ON => "FF" end.
Definition of_value (v : string) : result t :=
  if String.eqb v "00" then Ok OFF
  else if String.eqb v "FF" then Ok ON
  else Raise (ValueError (NotAValid "ChildLockState" v)).
End ChildLockState.

Module QualityLevel.
Inductive t : Type := CLEAN | LOW | MEDIUM | HIGH | VERY_HIGH.

(** The member's value: [CLEAN = 0] up to [VERY_HIGH = 4]. *)
Definition value (level : t) : Z :=
  match level with
  | CLEAN => 0
  | LOW => 1
  | MEDIUM => 2
  | HIGH => 3
  | VERY_HIGH => 4
  end.

Definition parse (int_value : Z) : t :=
  if int_value >? 75 then VERY_HIGH
  else if (56 <=? int_value) && (int_value <=? 75) then HIGH
  else if (36 <=? int_value) && (int_value <? 56) then MEDIUM
  else if (16 <=? int_value) && (int_value <? 36) then LOW
  else CLEAN.
End QualityLevel.

Module WaterContainerState.
Inductive t : Type := UNKNOWN | FULL | EMPTY.

Definition parse (int_value : Z) : t :=
  if int_value =? 0 then UNKNOWN
  else if int_value =? 1 then FULL
  else if int_value =? 2 then EMPTY
  else UNKNOWN.
End WaterContainerState.

(* ================================================================== *)
(** * sharp_devices/device_control.py *)
(* ================================================================== *)

(** One entry of a status list, a dict of one of the two shapes
    [{"statusCode": c, "valueType": "valueSingle", "valueSingle": {"code": v}}]
    [{"statusCode": c, "valueType": "valueBinary", "valueBinary": {"code": v}}]. *)
Inductive DeviceStatusPayload : Type :=
  | valueSingle (statusCode code : string)
  | valueBinary (statusCode code : string).

(** The abstract base classes are type classes over the type of [self]; a
    method that a subclass inherits is an instance derived from the
    subclass's own class. *)

(** [class Operation(ABC)] *)
Class Operation (O : Type) :=
  get_status_list : O → result (list DeviceStatusPayload).

(** [class Command(Operation)] *)
Class Command (C : Type) :=
  get_status_payload : C → result DeviceStatusPayload.

(** [Command.get_status_list]: [return [self.get_status_payload()]] *)
Global Instance Command_get_status_list `{Command C} : Operation C :=
  λ self, p ← get_status_payload self; Ok [p].

(** [class SingleCommand(Command)] *)
Module SingleCommand.
Record t : Type := __init__ { status_code : string; value : string }.

#[global] Instance get_status_payload : Command t :=
  λ self, Ok (valueSingle (status_code self) (value self)).
End SingleCommand.

(** [class BinaryCommand(Command)] *)
Class BinaryCommand (C : Type) := {
  get_status_code : C → string;
  get_binary_payload : C → result string
}.

(** [BinaryCommand.get_status_payload] *)
Global Instance BinaryCommand_get_status_payload `{BinaryCommand C} : Command C :=
  λ self,
    let statusCode := get_status_code self in
    code ← get_binary_payload self;
    Ok (valueBinary statusCode code).

(** [class DeviceStatusCommand(BinaryCommand)]: the three abstract methods. *)
Class DeviceStatusCommand (C : Type) := {
  get_header : C → string;
  get_payload_position : C → Z;
  get_payload_value : C → string
}.

Module DeviceStatusCommand.

(** [for i, char in enumerate(value): payload_chars[position + i] = char],
    from index [i] on. *)
Fixpoint set_value (payload_chars : list ascii) (position i : Z)
    (value : list ascii) : result (list ascii) :=
  match value with
  | [] => Ok payload_chars
  | char :: value' =>
      payload_chars' ← Py.setitem payload_chars (position + i) char;
      set_value payload_chars' position (i + 1) value'
  end.

Definition build_payload `{DeviceStatusCommand C} (self : C) : result string :=
  let header := get_header self in
  if negb (Py.len header =? 8) then
    Raise (ValueError (HeaderLength (Py.len header)))
  else
    let payload_chars := replicate 46%nat "0"%char in
    let position := get_payload_position self in
    let value := get_payload_value self in
    if (position <? 0) || (position >=? 46) then
      Raise (ValueError (PositionRange position))
    else if position + Py.len value >? 46 then
      Raise (ValueError (ExceedsBoundary position))
    else
      payload_chars ← set_value payload_chars position 0
                                (list_ascii_of_string value);
      let payload := Py.join payload_chars in
      Ok (header +:+ payload).

(** [get_status_code] returns ["F3"]; [get_binary_payload] returns
    [self.build_payload()]. *)
#[global] Instance binary `{DeviceStatusCommand C} : BinaryCommand C := {|
  get_status_code := λ _, "F3";
  get_binary_payload := build_payload
|}.

End DeviceStatusCommand.

(** A command of any class, as [List['Command']] holds them. *)
Record AnyCommand : Type := any {
  command_class : Type;
  command_methods : Command command_class;
  command_self : command_class
}.
Arguments any {_ _} _.

Definition any_status_payload (command : AnyCommand) : result DeviceStatusPayload :=
  @get_status_payload _ (command_methods command) (command_self command).

(** [class OperationList(Operation)] *)
Module OperationList.
Record t : Type := mk { commands : list AnyCommand }.

Definition __init__ (commands : list AnyCommand) : result t :=
  match commands with
  | [] => Raise (ValueError EmptyOperationList)
  | _ => Ok (mk commands)
  end.

#[global] Instance get_status_list : Operation t :=
  λ self, comprehension any_status_payload (commands self).
End OperationList.

Module ChangeModeCommand.
Record t : Type := __init__ { mode : OperatingMode.t }.
#[global] Instance methods : DeviceStatusCommand t := {|
  get_header := λ _, "01000000";
  get_payload_position := λ _, 0;
  get_payload_value := λ self, OperatingMode.value (mode self)
|}.
End ChangeModeCommand.

Module HumidificationCommand.
Record t : Type := __init__ { state : HumidificationState.t }.
#[global] Instance methods : DeviceStatusCommand t := {|
  get_header := λ _, "00080000";
  get_payload_position := λ _, 22;
  get_payload_value := λ self, HumidificationState.value (state self)
|}.
End HumidificationCommand.

Module LEDBrightnessCommand.
Record t : Type := __init__ { state : LEDBrightnessState.t }.
#[global] Instance methods : DeviceStatusCommand t := {|
  get_header := λ _, "00004000";
  get_payload_position := λ _, 44;
  get_payload_value := λ self, LEDBrightnessState.value (state self)
|}.
End LEDBrightnessCommand.

Module ChildLockCommand.
Record t : Type := __init__ { state : ChildLockState.t }.
#[global] Instance methods : DeviceStatusCommand t := {|
  get_header := λ _, "00400000";
  get_payload_position := λ _, 28;
  get_payload_value := λ self, ChildLockState.value (state self)
|}.
End ChildLockCommand.

Module _PowerStateCommand.
Record t : Type := __init__ { state : PowerState.t }.
#[global] Instance methods : DeviceStatusCommand t := {|
  get_header := λ _, "00020000";
  get_payload_position := λ _, 18;
  get_payload_value := λ self, PowerState.value (state self)
|}.
End _PowerStateCommand.

(** [class _PowerCommand(SingleCommand)]: only the constructor is its own. *)
Module _PowerCommand.
Definition __init__ (state : PowerState.t) : SingleCommand.t :=
  let value := match state with PowerState.ON => "30" | _ => "31" end in
  SingleCommand.__init__ "80" value.
End _PowerCommand.

(** [class PowerOperation(OperationList)]: only the constructor is its own. *)
Module PowerOperation.
Definition __init__ (state : PowerState.t) : result OperationList.t :=
  OperationList.__init__ [
    any (_PowerStateCommand.__init__ state);
    any (_PowerCommand.__init__ state)
  ].
End PowerOperation.

(** [class RefreshStateOperation(Operation)] *)
Module RefreshStateOperation.
Inductive t : Type := __init__.
#[global] Instance get_status_list : Operation t := λ _, Ok [].
End RefreshStateOperation.

(* ================================================================== *)
(** * sharp_devices/device_properties.py *)
(* ================================================================== *)

Module F1Property.
Record t : Type := mk {
  temperature : Z;
  humidity : Z;
  pm25_level : Z
}.

Definition from_hex (hex_string : string) : result t :=
  let hex_string := Py.strip hex_string in
  data ← Py.fromhex hex_string;
  Ok {|
    temperature := Py.from_bytes_big (Py.bytes_slice data 3 4);
    humidity := Py.from_bytes_big (Py.bytes_slice data 4 5);
    pm25_level := Py.from_bytes_little (Py.bytes_slice data 28 30)
  |}.
End F1Property.

Module F2Property.
Record t : Type := mk {
  air_quality : QualityLevel.t;
  dust_level : QualityLevel.t;
  odor_level : QualityLevel.t;
  water_container : WaterContainerState.t
}.

Definition from_hex (hex_string : string) : result t :=
  let hex_string := Py.strip hex_string in
  data ← Py.fromhex hex_string;
  Ok {|
    odor_level :=
      QualityLevel.parse (Py.from_bytes_big (Py.bytes_slice data 14 15));
    dust_level :=
      QualityLevel.parse (Py.from_bytes_big (Py.bytes_slice data 15 16));
    air_quality :=
      QualityLevel.parse (Py.from_bytes_big (Py.bytes_slice data 17 18));
    water_container :=
      WaterContainerState.parse (Py.from_bytes_big (Py.bytes_slice data 18 19))
  |}.
End F2Property.

Module F3Property.
Record t : Type := mk {
  operating_mode : OperatingMode.t;
  humidification : HumidificationState.t;
  power : PowerState.t;
  child_lock : ChildLockState.t;
  led_brightness : LEDBrightnessState.t
}.

(** The keyword arguments are evaluated in the order they are written, so
    the first code that is no member of its enumeration decides the
    exception. *)
Definition from_hex (hex_string : string) : result t :=
  let hex_string := Py.strip hex_string in
  if negb (Py.len hex_string =? 54) then
    Raise (ValueError (F3Length (Py.len hex_string)))
  else
    let payload := Py.slice_from hex_string 8 in
    operating_mode ← OperatingMode.of_value (Py.slice payload 0 2);
    humidification ← HumidificationState.of_value (Py.slice payload 22 24);
    power ← PowerState.of_value (Py.slice payload 18 20);
    child_lock ← ChildLockState.of_value (Py.slice payload 28 30);
    led_brightness ← LEDBrightnessState.of_value (Py.slice payload 44 46);
    Ok (mk operating_mode humidification power child_lock led_brightness).
End F3Property.

(** The property-query response,
    [{"deviceProperty": {"echonetNode": .., "label": ..,
                         "status": [{"statusCode": .., "valueBinary": {"code": ..}}, ..]}}]. *)
Module Json.
Record value_binary : Type := { code : option string }.
Record status : Type := {
  statusCode : option string;
  valueBinary : option value_binary
}.
Record device_property : Type := {
  echonetNode : option string;
  label : option string;
  status_list : option (list status)     (* the key ["status"] *)
}.
Record response_data : Type := { deviceProperty : option device_property }.

(** [d.get(key, default)] *)
Definition get {A} (field : option A) (default : A) : A :=
  match field with Some v => v | None => default end.

(** The empty dict [{}] at each of the two places it is a default. *)
Definition no_value_binary : value_binary := {| code := None |}.
Definition no_device_property : device_property :=
  {| echonetNode := None; label := None; status_list := None |}.
End Json.

Module DeviceProperties.
Record t : Type := mk {
  echonet_node : string;
  label : string;
  f1_property : option F1Property.t;
  f2_property : option F2Property.t;
  f3_property : option F3Property.t
}.

(** The three local variables that the loop over the status list assigns. *)
Definition locals : Type :=
  option F1Property.t * option F2Property.t * option F3Property.t.

(** The body of [for status in status_list]. *)
Definition loop_body (vars : locals) (status : Json.status) : result locals :=
  let '(f1_property, f2_property, f3_property) := vars in
  let status_code := Py.lower (Json.get (Json.statusCode status) "") in
  let code :=
    Json.get (Json.code (Json.get (Json.valueBinary status) Json.no_value_binary)) "" in
  if String.eqb status_code "f1" then
    f1_property ← F1Property.from_hex code;
    Ok (Some f1_property, f2_property, f3_property)
  else if String.eqb status_code "f2" then
    f2_property ← F2Property.from_hex code;
    Ok (f1_property, Some f2_property, f3_property)
  else if String.eqb status_code "f3" then
    f3_property ← F3Property.from_hex code;
    Ok (f1_property, f2_property, Some f3_property)
  else Ok vars.

Fixpoint loop (vars : locals) (status_list : list Json.status) : result locals :=
  match status_list with
  | [] => Ok vars
  | status :: rest => vars' ← loop_body vars status; loop vars' rest
  end.

Definition from_api_response (response_data : Json.response_data) : result t :=
  let device_property :=
    Json.get (Json.deviceProperty response_data) Json.no_device_property in
  let echonet_node := Json.get (Json.echonetNode device_property) "" in
  let label := Json.get (Json.label device_property) "" in
  let status_list := Json.get (Json.status_list device_property) [] in
  '(f1_property, f2_property, f3_property) ← loop (None, None, None) status_list;
  Ok (mk echonet_node label f1_property f2_property f3_property).
End DeviceProperties.

(* ================================================================== *)
(** * sharp_devices/operations.py *)
(* ================================================================== *)

Record BoxInfo : Type := {
  box_id : string;
  echonet_node : string;
  echonet_object : string;
  deviceId : string;
  terminals : list string
}.

(** The two requests that [execute_operation] posts, with the parameters and
    the JSON body that it builds for each. *)
Inductive request : Type :=
  | deviceControl (terminalAppId boxId : string)
      (deviceId echonetNode echonetObject : string)
      (status : list DeviceStatusPayload)
  | controlResult (boxId : string) (id : string).

(** The JSON objects that answer them:
    [{"controlList": [{"id": ..}]}] and
    [{"resultList": [{"id": .., "status": .., "errorCode": .., "epc": .., "edt": ..}]}]. *)
Module Reply.
Record control : Type := { id : option string }.
Record outcome : Type := {
  status : option string;
  errorCode : option string;
  epc : option string;
  edt : option string
}.
Record json : Type := {
  controlList : option (list control);
  resultList : option (list outcome)
}.
End Reply.

(** One call of [SharpClient.post_json]: the parsed JSON, or an exception
    (a status that is not 2xx, a network error, a body that is not JSON). *)
Inductive post_result : Type :=
  | Returns (json : Reply.json)
  | Throws.

(** The transport collaborator. Its answer may depend on how many requests
    this execution has posted before, and on the request. *)
Record SharpClient : Type := {
  post_json : nat → request → post_result
}.

(** The calls of [logger], with the data that their messages format. *)
Inductive log_record : Type :=
  | error_no_operation_id (box_id : string)
  | info_control_request_sent (box_id operation_id : string)
  | debug_no_status_result (check : Z) (operation_id : string)
  | debug_status_check (check : Z) (operation_id : string)
      (status errorCode : option string)
  | error_operation_failed (operation_id : string) (errorCode : option string)
  | info_operation_completed (operation_id : string) (epc edt : option string)
  | info_checks_completed_without_success (operation_id : string)
  | error_during_device_control (box_id : string).

(** What an execution leaves behind: the requests posted, the seconds slept
    and the log, each in the order of time. *)
Record world : Type := {
  posted : list request;
  slept : Z;
  logged : list log_record
}.

Definition start : world := {| posted := []; slept := 0; logged := [] |}.

Definition post (client : SharpClient) (r : request) (w : world)
    : post_result * world :=
  (post_json client (length (posted w)) r,
   {| posted := posted w ++ [r]; slept := slept w; logged := logged w |}).

Definition sleep (seconds : Z) (w : world) : world :=
  {| posted := posted w; slept := slept w + seconds; logged := logged w |}.

Definition log (r : log_record) (w : world) : world :=
  {| posted := posted w; slept := slept w; logged := logged w ++ [r] |}.

(** Python truth of an optional list and of an optional string. *)
Definition truthy_list {A} (l : option (list A)) : bool :=
  match l with Some (_ :: _) => true | _ => false end.
Definition truthy_str (s : option string) : bool :=
  match s with Some s => negb (String.eqb s "") | None => false end.

(** How control leaves the [for] loop. *)
Inductive loop_exit : Type :=
  | Return (value : bool)     (* a [return] in the body *)
  | Completed                 (* the range is used up *)
  | Exception.                (* [post_json] raised *)

Module SharpOperations.

(** [for i in range(10): ...], over the rest [range] of the range. *)
Fixpoint status_checks (client : SharpClient) (box_info : BoxInfo)
    (operation_id : string) (range : list Z) (w : world) : loop_exit * world :=
  match range with
  | [] => (Completed, w)
  | i :: range' =>
      let w := sleep 1 w in
      let '(status_result, w) :=
        post client (controlResult (box_id box_info) operation_id) w in
      match status_result with
      | Throws => (Exception, w)
      | Returns status_result =>
          match Reply.resultList status_result with
          | Some (result :: _) =>
              let w := log (debug_status_check (i + 1) operation_id
                              (Reply.status result) (Reply.errorCode result)) w in
              if bool_decide (Reply.status result = Some "error") then
                let w := log (error_operation_failed operation_id
                                (Reply.errorCode result)) w in
                (Return false, w)
              else if bool_decide (Reply.errorCode result = None)
                      && bool_decide (Reply.status result ∈
                                        [Some "unmatch"; Some "success"]) then
                let w := log (info_operation_completed operation_id
                                (Reply.epc result) (Reply.edt result)) w in
                (Return true, w)
              else status_checks client box_info operation_id range' w
          | _ =>
              let w := log (debug_no_status_result (i + 1) operation_id) w in
              status_checks client box_info operation_id range' w
          end
      end
  end.

(** The body of the [try] statement: it returns, or an exception reaches
    the [except] clause ([None]). *)
Definition control_and_poll (client : SharpClient) (box_info : BoxInfo)
    (terminal_app_id : string) (status_list : list DeviceStatusPayload)
    (w : world) : option bool * world :=
  let '(control_result, w) :=
    post client (deviceControl terminal_app_id (box_id box_info)
                   (deviceId box_info) (echonet_node box_info)
                   (echonet_object box_info) status_list) w in
  match control_result with
  | Throws => (None, w)
  | Returns control_result =>
      match Reply.controlList control_result with
      | Some (first :: _) =>
          if truthy_str (Reply.id first) then
            let operation_id := Json.get (Reply.id first) "" in
            let w := log (info_control_request_sent (box_id box_info)
                            operation_id) w in
            match status_checks client box_info operation_id (seqZ 0 10) w with
            | (Return value, w) => (Some value, w)
            | (Exception, w) => (None, w)
            | (Completed, w) =>
                let w := log (info_checks_completed_without_success
                                operation_id) w in
                (Some false, w)
            end
          else
            (Some false, log (error_no_operation_id (box_id box_info)) w)
      | _ =>
          (Some false, log (error_no_operation_id (box_id box_info)) w)
      end
  end.

(** [get_status_list] is called before the [try]: what it raises leaves
    [execute_operation]; every exception inside the [try] is caught. *)
Definition execute_operation {Op : Type} `{!Operation Op}
    (client : SharpClient) (box_info : BoxInfo) (terminal_app_id : string)
    (operation : Op) (w : world) : result bool * world :=
  match get_status_list operation with
  | Raise e => (Raise e, w)
  | Ok status_list =>
      match control_and_poll client box_info terminal_app_id status_list w with
      | (Some value, w) => (Ok value, w)
      | (None, w) =>
          (Ok false, log (error_during_device_control (box_id box_info)) w)
      end
  end.

(** [execute_commands]: the wrapper that builds the [OperationList]. *)
Definition execute_commands (client : SharpClient) (box_info : BoxInfo)
    (terminal_app_id : string) (commands : list AnyCommand) (w : world)
    : result bool * world :=
  match OperationList.__init__ commands with
  | Raise e => (Raise e, w)
  | Ok operation => execute_operation client box_info terminal_app_id operation w
  end.

End SharpOperations.

(* ================================================================== *)
(** * The callers: fan.py, switch.py, binary_sensor.py *)
(* ================================================================== *)

(** Members of an enumeration are compared with [==]. *)
Global Instance OperatingMode_eq_dec : EqDecision OperatingMode.t.
Proof. solve_decision. Defined.
Global Instance PowerState_eq_dec : EqDecision PowerState.t.
Proof. solve_decision. Defined.
Global Instance HumidificationState_eq_dec : EqDecision HumidificationState.t.
Proof. solve_decision. Defined.
Global Instance ChildLockState_eq_dec : EqDecision ChildLockState.t.
Proof. solve_decision. Defined.
Global Instance LEDBrightnessState_eq_dec : EqDecision LEDBrightnessState.t.
Proof. solve_decision. Defined.
Global Instance WaterContainerState_eq_dec : EqDecision WaterContainerState.t.
Proof. solve_decision. Defined.

(** A dict literal with string keys, in the order it is written. *)
Definition dict (V : Type) : Type := list (string * V).

(** [d.get(key)]: [None] when the key is missing. *)
Fixpoint dict_get {V} (d : dict V) (key : string) : option V :=
  match d with
  | [] => None
  | (k, v) :: d' => if String.eqb k key then Some v else dict_get d' key
  end.

(** [class SharpIoTFan] and the two tables of [fan.py]. The entity reads
    the coordinator through [get_device_properties], which returns the
    snapshot of the device or [None]; it is the argument [properties]. *)
Module SharpIoTFan.

Definition PRESET_MODES : list string :=
  ["auto"; "sleep"; "low"; "medium"; "max"; "pollen"; "ion_shower";
   "sharp_life_air"].

Definition PRESET_TO_MODE : dict OperatingMode.t :=
  [("auto", OperatingMode.AUTO);
   ("sleep", OperatingMode.SLEEP);
   ("low", OperatingMode.LOW);
   ("medium", OperatingMode.MED);
   ("max", OperatingMode.MAX);
   ("pollen", OperatingMode.POLLEN);
   ("ion_shower", OperatingMode.ION_SHOWER);
   ("sharp_life_air", OperatingMode.SHARP_LIFE_AIR)].

(** [for preset, op_mode in PRESET_TO_MODE.items(): if op_mode == mode:
    return preset], falling through to [return None]. *)
Fixpoint first_preset (items : dict OperatingMode.t) (mode : OperatingMode.t)
    : option string :=
  match items with
  | [] => None
  | (preset, op_mode) :: items' =>
      if bool_decide (op_mode = mode) then Some preset
      else first_preset items' mode
  end.

(** The property [preset_mode]. *)
Definition preset_mode (properties : option DeviceProperties.t) : option string :=
  match properties with
  | Some properties =>
      match DeviceProperties.f3_property properties with
      | Some f3_property =>
          let mode := F3Property.operating_mode f3_property in
          if bool_decide (mode = OperatingMode.OFF) then None
          else first_preset PRESET_TO_MODE mode
      | None => None
      end
  | None => None
  end.

(** The property [available]; [device_available] is what
    [coordinator.is_device_available] returns. *)
Definition available (device_available : bool)
    (properties : option DeviceProperties.t) : bool :=
  if negb device_available then false
  else
    match properties with
    | Some properties =>
        match DeviceProperties.f3_property properties with
        | Some f3_property =>
            bool_decide (F3Property.power f3_property = PowerState.ON)
        | None => false
        end
    | None => false
    end.

(** [async_set_preset_mode]: the command that is handed to
    [coordinator.async_execute_command], or [None] when the preset is not
    in the table, an error is logged and nothing is executed. *)
Definition async_set_preset_mode (preset_mode : string)
    : option ChangeModeCommand.t :=
  match dict_get PRESET_TO_MODE preset_mode with
  | None => None
  | Some mode => Some (ChangeModeCommand.__init__ mode)
  end.

End SharpIoTFan.

(** The switches of [switch.py]: for each, the property [is_on] and the
    operation that [async_turn_on] and [async_turn_off] execute. *)
Module SharpPowerSwitch.
Definition is_on (properties : option DeviceProperties.t) : option bool :=
  match properties with
  | Some properties =>
      match DeviceProperties.f3_property properties with
      | Some f3_property =>
          Some (bool_decide (F3Property.power f3_property = PowerState.ON))
      | None => None
      end
  | None => None
  end.
Definition async_turn_on : result OperationList.t :=
  PowerOperation.__init__ PowerState.ON.
Definition async_turn_off : result OperationList.t :=
  PowerOperation.__init__ PowerState.OFF.
End SharpPowerSwitch.

Module SharpHumidificationSwitch.
Definition is_on (properties : option DeviceProperties.t) : option bool :=
  match properties with
  | Some properties =>
      match DeviceProperties.f3_property properties with
      | Some f3_property =>
          Some (bool_decide (F3Property.humidification f3_property
                             = HumidificationState.ON))
      | None => None
      end
  | None => None
  end.
Definition async_turn_on : HumidificationCommand.t :=
  HumidificationCommand.__init__ HumidificationState.ON.
Definition async_turn_off : HumidificationCommand.t :=
  HumidificationCommand.__init__ HumidificationState.OFF.
End SharpHumidificationSwitch.

Module SharpChildLockSwitch.
Definition is_on (properties : option DeviceProperties.t) : option bool :=
  match properties with
  | Some properties =>
      match DeviceProperties.f3_property properties with
      | Some f3_property =>
          Some (bool_decide (F3Property.child_lock f3_property
                             = ChildLockState.ON))
      | None => None
      end
  | None => None
  end.
Definition async_turn_on : ChildLockCommand.t :=
  ChildLockCommand.__init__ ChildLockState.ON.
Definition async_turn_off : ChildLockCommand.t :=
  ChildLockCommand.__init__ ChildLockState.OFF.
End SharpChildLockSwitch.

Module SharpLEDBrightnessSwitch.
Definition is_on (properties : option DeviceProperties.t) : option bool :=
  match properties with
  | Some properties =>
      match DeviceProperties.f3_property properties with
      | Some f3_property =>
          Some (negb (bool_decide (F3Property.led_brightness f3_property
                                   = LEDBrightnessState.OFF)))
      | None => None
      end
  | None => None
  end.
Definition async_turn_on : LEDBrightnessCommand.t :=
  LEDBrightnessCommand.__init__ LEDBrightnessState.AUTO.
Definition async_turn_off : LEDBrightnessCommand.t :=
  LEDBrightnessCommand.__init__ LEDBrightnessState.OFF.
End SharpLEDBrightnessSwitch.

(** [SharpSwitchBase.available]. *)
Module SharpSwitchBase.
Definition available (switch_type : string) (device_available : bool)
    (properties : option DeviceProperties.t) : bool :=
  if negb device_available then false
  else if String.eqb switch_type "power" then true
  else
    match properties with
    | Some properties =>
        match DeviceProperties.f3_property properties with
        | Some f3_property =>
            bool_decide (F3Property.power f3_property = PowerState.ON)
        | None => false
        end
    | None => false
    end.
End SharpSwitchBase.

(** [class SharpWaterLevelSensor] of [binary_sensor.py]. *)
Module SharpWaterLevelSensor.
Definition is_on (properties : option DeviceProperties.t) : option bool :=
  match properties with
  | Some properties =>
      match DeviceProperties.f2_property properties with
      | Some f2_property =>
          Some (bool_decide (F2Property.water_container f2_property
                             = WaterContainerState.EMPTY))
      | None => None
      end
  | None => None
  end.
End SharpWaterLevelSensor.

(* ================================================================== *)
(** * sharp_core/client.py *)
(* ================================================================== *)

(** [class SharpClient]. The [requests] session is a function from the
    arguments of a call to what the call does; [params] and [headers] are
    dicts with string keys and values, a missing argument is [None]. The
    dict that [get] and [post] send is the caller's dict after the method
    has assigned to it. *)
Module Client.

Definition USER_AGENT : string :=
  "smartlink_v200a_eu Dalvik/2.1.0 (Linux; U; Android 15; SM-S918B Build/AP3A.240905.015.A2)".
Definition APP_SECRET : string := "pngtfljRoYsJE9NW7opn1t2cXA5MtZDKbwon368hs80=".

Section client.
(** The type of parsed JSON values. *)
Context {J : Type}.

(** The arguments of [session.get] and [session.post]. *)
Record call : Type := {
  url : string;
  params : gmap string string;
  headers : gmap string string;
  json : option J              (* [None] for a GET *)
}.

(** A response: its status code, and its body parsed as JSON, [None] when
    the body is not JSON. *)
Record response : Type := {
  status_code : Z;
  body : option J
}.

(** The exceptions of this module. *)
Inductive error : Type :=
  | RequestException               (* raised by the session: no response *)
  | HTTPError (status_code : Z)    (* raised by [raise_for_status] *)
  | JSONValueError.                (* raised by [response.json()] *)

Inductive outcome (A : Type) : Type :=
  | Done (a : A)
  | Failed (e : error).
Arguments Done {A} a.
Arguments Failed {A} e.

(** [response.raise_for_status()] *)
Definition raise_for_status (r : response) : outcome response :=
  if (400 <=? status_code r) && (status_code r <? 600)
  then Failed (HTTPError (status_code r)) else Done r.

(** [headers[key] = value] unless the key is there already. *)
Definition setdefault (key value : string) (d : gmap string string)
    : gmap string string :=
  match d !! key with
  | Some _ => d
  | None => <[key := value]> d
  end.

(** The call that [get] makes. *)
Definition get_call (url : string) (params headers : option (gmap string string))
    : call :=
  let params := default ∅ params in
  let headers := default ∅ headers in
  let params := <["appSecret" := APP_SECRET]> params in
  let headers := setdefault "Accept" "application/json" headers in
  {| url := url; params := params; headers := headers; json := None |}.

(** The call that [post] makes; a missing [json] is the empty object. *)
Definition post_call (empty_object : J) (url : string)
    (params headers : option (gmap string string)) (json : option J) : call :=
  let params := default ∅ params in
  let headers := default ∅ headers in
  let json := default empty_object json in
  let params := <["appSecret" := APP_SECRET]> params in
  let headers :=
    setdefault "Content-Type" "application/json; charset=utf-8" headers in
  let headers := setdefault "Accept" "application/json" headers in
  {| url := url; params := params; headers := headers; json := Some json |}.

Definition get (session : call → option response) (url : string)
    (params headers : option (gmap string string)) : outcome response :=
  match session (get_call url params headers) with
  | None => Failed RequestException
  | Some response => raise_for_status response
  end.

Definition post (session : call → option response) (empty_object : J)
    (url : string) (params headers : option (gmap string string))
    (json : option J) : outcome response :=
  match session (post_call empty_object url params headers json) with
  | None => Failed RequestException
  | Some response => raise_for_status response
  end.

(** [response.json()] *)
Definition response_json (r : response) : outcome J :=
  match body r with
  | Some value => Done value
  | None => Failed JSONValueError
  end.

Definition get_json (session : call → option response) (url : string)
    (params headers : option (gmap string string)) : outcome J :=
  match get session url params headers with
  | Done response => response_json response
  | Failed e => Failed e
  end.

(** The [except ValueError] clause logs and raises a [ValueError] again. *)
Definition post_json (session : call → option response) (empty_object : J)
    (url : string) (params headers : option (gmap string string))
    (json : option J) : outcome J :=
  match post session empty_object url params headers json with
  | Done response => response_json response
  | Failed e => Failed e
  end.

End client.
Arguments Done {A} a.
Arguments Failed {A} e.
Arguments call : clear implicits.
Arguments response : clear implicits.
End Client.

(* ================================================================== *)
(** * custom_components/sharp_iot/coordinator.py *)
(* ================================================================== *)

(** [SharpIoTDataUpdateCoordinator.async_execute_command], run to its end:
    the executor job is the call of [execute_operation]. *)
Module SharpIoTDataUpdateCoordinator.

(** [for dev in self.devices: if dev.box_id == device_id: device = dev; break] *)
Fixpoint find_device (devices : list BoxInfo) (device_id : string)
    : option BoxInfo :=
  match devices with
  | [] => None
  | dev :: devices' =>
      if String.eqb (box_id dev) device_id then Some dev
      else find_device devices' device_id
  end.

(** What a call leaves behind, besides the value it returns: whether
    [async_request_refresh] was awaited, and the world of the transport. *)
Record effects : Type := {
  refresh_requested : bool;
  transport : world
}.

Definition async_execute_command {Op : Type} `{!Operation Op}
    (client : SharpClient) (devices : list BoxInfo) (terminal_id : string)
    (device_id : string) (operation : Op) (w : world) : bool * effects :=
  match find_device devices device_id with
  | None => (false, {| refresh_requested := false; transport := w |})
  | Some device =>
      match SharpOperations.execute_operation client device terminal_id
              operation w with
      | (Ok success, w') =>
          (success, {| refresh_requested := success; transport := w' |})
      | (Raise _, w') =>
          (false, {| refresh_requested := false; transport := w' |})
      end
  end.

End SharpIoTDataUpdateCoordinator.

(* ================================================================== *)
(** * Definitions used to state the properties *)
(* ================================================================== *)

(** A subclass of [DeviceStatusCommand] that is given by what its three
    methods return. It stands for a subclass written outside
    [device_control.py]; the design specification calls it
    [BinaryFieldCommand{header, position, value}]. *)
Module BinaryFieldCommand.
Record t : Type := mk { header : string; position : Z; value : string }.
#[global] Instance methods : DeviceStatusCommand t := {|
  get_header := header;
  get_payload_position := position;
  get_payload_value := value
|}.
End BinaryFieldCommand.

(** The field area that holds [value] at [position] and ['0'] elsewhere. *)
Definition field_area (position : Z) (value : string) : list ascii :=
  replicate (Z.to_nat position) "0"%char
  ++ list_ascii_of_string value
  ++ replicate (46 - Z.to_nat position - String.length value)%nat "0"%char.

(** A value is the code of a member of the enumeration. *)
Definition member {E : Type} (value_of : E → string) (code : string) : Prop :=
  ∃ e, value_of e = code.

(** The poll attempts of an execution: the status requests it has posted. *)
Definition is_poll (r : request) : bool :=
  match r with controlResult _ _ => true | deviceControl _ _ _ _ _ _ => false end.

Definition poll_attempts (w : world) : nat :=
  length (List.filter is_poll (posted w)).

(** The exit that an execution took, read off the last record of its log. *)
Definition last_logged (w : world) : option log_record := last (logged w).

(** A transport with injected answers, and the answers of the simulation. *)
Module Script.

(** The control request is answered by [control], and the k-th status
    request by the k-th element of [polls]; once they are used up the
    transport raises. (One request, the control request, precedes the
    first poll.) *)
Definition client (control : post_result) (polls : list post_result)
    : SharpClient :=
  {| post_json := λ n r,
       match r with
       | deviceControl _ _ _ _ _ _ => control
       | controlResult _ _ => nth (n - 1) polls Throws
       end |}.

(** [{"controlList": [{"id": operation_id}]}] *)
Definition submitted (operation_id : string) : post_result :=
  Returns {| Reply.controlList := Some [ {| Reply.id := Some operation_id |} ];
             Reply.resultList := None |}.

(** A poll response without a result entry. *)
Definition no_result : post_result :=
  Returns {| Reply.controlList := None; Reply.resultList := Some [] |}.

(** [{"resultList": [{"status": status, "errorCode": errorCode}]}] *)
Definition outcome (status : string) (errorCode : option string) : post_result :=
  Returns {| Reply.controlList := None;
             Reply.resultList :=
               Some [ {| Reply.status := Some status;
                         Reply.errorCode := errorCode;
                         Reply.epc := None; Reply.edt := None |} ] |}.

Definition box : BoxInfo :=
  {| box_id := "box-1"; echonet_node := "node"; echonet_object := "object";
     deviceId := "device"; terminals := ["terminal"] |}.

End Script.

(** The three terminal outcomes that the design specification names. *)
Inductive OperationResult : Type :=
  | Success
  | Error (code : string)
  | Timeout.

(* ================================================================== *)
(** * Definitions used to state the further properties *)
(* ================================================================== *)

(** The value that a call returned, if it returned. *)
Definition returned {A} (m : result A) : option A :=
  match m with Ok a => Some a | Raise _ => None end.

(** The entries of a property-query response: the list that
    [from_api_response] iterates over, empty when a key is missing. *)
Definition status_entries (response_data : Json.response_data)
    : list Json.status :=
  Json.get (Json.status_list
              (Json.get (Json.deviceProperty response_data)
                        Json.no_device_property)) [].

(** The status code of an entry as the loop compares it, and its blob. *)
Definition status_code_of (status : Json.status) : string :=
  Py.lower (Json.get (Json.statusCode status) "").

Definition blob_of (status : Json.status) : string :=
  Json.get (Json.code (Json.get (Json.valueBinary status) Json.no_value_binary)) "".

(** The entry carries one of the three status codes that are decoded. *)
Definition recognised (status : Json.status) : bool :=
  String.eqb (status_code_of status) "f1"
  || String.eqb (status_code_of status) "f2"
  || String.eqb (status_code_of status) "f3".

(** The blob of the last entry of the list with the status code [code]. *)
Fixpoint last_blob (code : string) (status_list : list Json.status)
    : option string :=
  match status_list with
  | [] => None
  | status :: rest =>
      match last_blob code rest with
      | Some blob => Some blob
      | None =>
          if String.eqb (status_code_of status) code
          then Some (blob_of status) else None
      end
  end.

(** The blob of the entry can be decoded, when its code is recognised. *)
Definition decodes (status : Json.status) : Prop :=
  (status_code_of status = "f1" →
   ∃ v, F1Property.from_hex (blob_of status) = Ok v)
  ∧ (status_code_of status = "f2" →
     ∃ v, F2Property.from_hex (blob_of status) = Ok v)
  ∧ (status_code_of status = "f3" →
     ∃ v, F3Property.from_hex (blob_of status) = Ok v).

(** An entry [{"statusCode": status_code, "valueBinary": {"code": blob}}]. *)
Definition entry (status_code blob : string) : Json.status :=
  {| Json.statusCode := Some status_code;
     Json.valueBinary := Some {| Json.code := Some blob |} |}.

(** A response with all its keys. *)
Definition response (echonetNode label : string) (status : list Json.status)
    : Json.response_data :=
  {| Json.deviceProperty :=
       Some {| Json.echonetNode := Some echonetNode; Json.label := Some label;
               Json.status_list := Some status |} |}.

(** The two tests that the polling loop applies to a result entry. *)
Definition is_error (result : Reply.outcome) : bool :=
  bool_decide (Reply.status result = Some "error").

Definition is_success (result : Reply.outcome) : bool :=
  bool_decide (Reply.errorCode result = None)
  && bool_decide (Reply.status result ∈ [Some "unmatch"; Some "success"]).

(** The first result entry of a poll response, if it has one. *)
Definition first_result (reply : post_result) : option Reply.outcome :=
  match reply with
  | Returns json =>
      match Reply.resultList json with
      | Some (result :: _) => Some result
      | _ => None
      end
  | Throws => None
  end.

(** A poll response after which the loop goes on: it has no result entry,
    or its first entry is neither an error nor a success free of an error
    code. *)
Definition pending (reply : post_result) : bool :=
  match reply with
  | Returns _ =>
      match first_result reply with
      | Some result => negb (is_error result) && negb (is_success result)
      | None => true
      end
  | Throws => false
  end.

(** The operation id that the response to the control request carries, if
    the request was answered and the id is neither missing nor empty. *)
Definition operation_id_of (reply : post_result) : option string :=
  match reply with
  | Returns json =>
      match Reply.controlList json with
      | Some (first :: _) =>
          if truthy_str (Reply.id first) then Reply.id first else None
      | _ => None
      end
  | Throws => None
  end.

(** The control request of an execution, and its poll request. *)
Definition control_request (box_info : BoxInfo) (terminal_app_id : string)
    (status_list : list DeviceStatusPayload) : request :=
  deviceControl terminal_app_id (box_id box_info) (deviceId box_info)
    (echonet_node box_info) (echonet_object box_info) status_list.

Definition poll_request (box_info : BoxInfo) (operation_id : string) : request :=
  controlResult (box_id box_info) operation_id.

(** A string of white space only, as [str.strip] sees white space. *)
Fixpoint white_space (s : string) : bool :=
  match s with
  | EmptyString => true
  | String c s' => Py.isspace c && white_space s'
  end.

(* ================================================================== *)
(** * Properties *)
(* ================================================================== *)

(** ** Strings seen as lists of characters *)

Section strings_as_lists.
Implicit Types (s t : string) (l : list ascii) (n m : nat).

Local Abbreviation chars := list_ascii_of_string.

Lemma chars_inj s t : chars s = chars t → s = t.
Proof.
  intros E. rewrite <- (string_of_list_ascii_of_string s),
    <- (string_of_list_ascii_of_string t). by rewrite E.
Qed.

Lemma chars_app s t : chars (s +:+ t) = chars s ++ chars t.
Proof. induction s as [|c s IH]; simpl; [done | by rewrite IH]. Qed.

Lemma chars_length s : length (chars s) = String.length s.
Proof. induction s as [|c s IH]; simpl; [done | by rewrite IH]. Qed.

Lemma chars_substring n m s : chars (substring n m s) = take m (drop n (chars s)).
Proof.
  revert n m. induction s as [|c s IH]; intros [|n] [|m]; simpl;
    try done; try apply IH.
  by rewrite (IH 0%nat m), drop_0.
Qed.

Lemma chars_get n s : String.get n s = chars s !! n.
Proof.
  revert n. induction s as [|c s IH]; intros [|n]; simpl; done.
Qed.

Lemma len_chars s : Py.len s = Z.of_nat (length (chars s)).
Proof. unfold Py.len. by rewrite chars_length. Qed.

Lemma len_app s t : Py.len (s +:+ t) = Py.len s + Py.len t.
Proof. rewrite !len_chars, chars_app, length_app. lia. Qed.

Lemma len_join l : Py.len (Py.join l) = Z.of_nat (length l).
Proof.
  unfold Py.join. by rewrite len_chars, list_ascii_of_string_of_list_ascii.
Qed.

Lemma len_nonneg s : 0 ≤ Py.len s.
Proof. unfold Py.len. lia. Qed.

(** A slice with both bounds inside the string. *)
Lemma chars_slice s (a b : Z) :
  0 ≤ a ≤ b → b ≤ Py.len s →
  chars (Py.slice s a b) = take (Z.to_nat (b - a)) (drop (Z.to_nat a) (chars s)).
Proof.
  intros Ha Hb. unfold Py.slice, Py.clamp.
  rewrite !(proj2 (Z.ltb_ge _ 0)) by lia.
  rewrite !Z.min_l by lia. apply chars_substring.
Qed.

Lemma getitem_chars s (i : Z) :
  0 ≤ i → Py.getitem s i = chars s !! Z.to_nat i.
Proof.
  intros Hi. unfold Py.getitem.
  rewrite (proj2 (Z.ltb_ge _ 0)) by lia. apply chars_get.
Qed.

End strings_as_lists.

(** ** The binary-field encoder *)

Section build_payload.
Context {C : Type} `{!DeviceStatusCommand C}.
Implicit Types (self : C) (l value : list ascii).

Local Abbreviation zero := ("0"%char).

Lemma setitem_in_range {A} (l : list A) (i : Z) (x : A) :
  0 ≤ i < Z.of_nat (length l) →
  Py.setitem l i x = Ok (<[Z.to_nat i := x]> l).
Proof.
  intros Hi. unfold Py.setitem.
  rewrite (proj2 (Z.ltb_ge i 0)) by lia.
  rewrite (proj2 (Z.leb_le 0 i)), (proj2 (Z.ltb_lt _ _)) by lia. done.
Qed.

(** The loop overwrites the slice [position + i, position + i + len(value))
    and nothing else, as long as that slice lies inside the list. *)
Lemma set_value_in_range value : ∀ l (position i : Z),
  0 ≤ position → 0 ≤ i →
  position + i + Z.of_nat (length value) ≤ Z.of_nat (length l) →
  DeviceStatusCommand.set_value l position i value
  = Ok (take (Z.to_nat (position + i)) l ++ value
        ++ drop (Z.to_nat (position + i) + length value) l).
Proof.
  induction value as [|c value IH]; intros l position i Hp Hi Hlen; simpl.
  - by rewrite Nat.add_0_r, take_drop.
  - simpl in Hlen. rewrite setitem_in_range by lia. simpl.
    rewrite IH by (rewrite ?length_insert; lia). f_equal.
    replace (Z.to_nat (position + (i + 1))) with (S (Z.to_nat (position + i))) by lia.
    assert (Z.to_nat (position + i) < length l)%nat as Hlt by lia.
    rewrite (take_S_r _ _ c) by (by apply list_lookup_insert_eq).
    rewrite take_insert_ge by lia.
    rewrite drop_insert_lt by lia.
    rewrite <- app_assoc. simpl. by rewrite Nat.add_succ_r.
Qed.

(** What [build_payload] does, case by case in the order of its checks. *)
Lemma build_payload_cases self :
  let header := get_header self in
  let position := get_payload_position self in
  let value := get_payload_value self in
  DeviceStatusCommand.build_payload self =
    if decide (Py.len header ≠ 8) then
      Raise (ValueError (HeaderLength (Py.len header)))
    else if decide (position < 0 ∨ 46 ≤ position) then
      Raise (ValueError (PositionRange position))
    else if decide (46 < position + Py.len value) then
      Raise (ValueError (ExceedsBoundary position))
    else Ok (header +:+ Py.join (field_area position value)).
Proof.
  intros header position value. unfold DeviceStatusCommand.build_payload.
  fold header position value.
  remember (replicate 46%nat zero) as zeros eqn:Hz.
  destruct (Z.eqb_spec (Py.len header) 8) as [Hh|Hh]; simpl;
    [rewrite decide_False by tauto | by rewrite decide_True].
  destruct (Z.ltb_spec position 0) as [Hp0|Hp0]; simpl;
    [rewrite decide_True by lia; done|].
  destruct (Z.geb_spec position 46) as [Hp46|Hp46]; simpl;
    [rewrite decide_True by lia; done|].
  rewrite decide_False by lia.
  destruct (Z.gtb_spec (position + Py.len value) 46) as [Hv|Hv];
    [rewrite decide_True by lia; done|].
  rewrite decide_False by lia.
  rewrite len_chars in Hv.
  subst zeros. rewrite set_value_in_range by (rewrite ?length_replicate; lia).
  change (Ok ?a ≫= ?f) with (f a). cbv beta.
  do 3 f_equal. unfold field_area. rewrite Z.add_0_r.
  rewrite take_replicate, drop_replicate, chars_length.
  rewrite <- (chars_length value). f_equal; [f_equal; lia | f_equal; f_equal; lia].
Qed.


Lemma field_area_length (position : Z) (value : string) :
  0 ≤ position → position + Py.len value ≤ 46 →
  length (field_area position value) = 46%nat.
Proof.
  intros Hp Hv. unfold field_area, Py.len in *.
  rewrite !length_app, !length_replicate, chars_length. lia.
Qed.

(** C1. Encode/decode round trip: when the header has 8 characters and the
    value fits the field area at [position], [build_payload] returns a
    blob of 54 characters whose slice
    [8 + position, 8 + position + len(value)) is exactly [value], and every
    other character of the field area is ['0']. *)
Theorem build_payload_round_trip self
    (Hheader : Py.len (get_header self) = 8)
    (Hposition : 0 ≤ get_payload_position self < 46)
    (Hvalue : get_payload_position self + Py.len (get_payload_value self) ≤ 46) :
  ∃ blob,
    DeviceStatusCommand.build_payload self = Ok blob
    ∧ Py.len blob = 54
    ∧ Py.slice blob (8 + get_payload_position self)
               (8 + get_payload_position self + Py.len (get_payload_value self))
      = get_payload_value self
    ∧ ∀ i, 0 ≤ i < 46 →
        ¬ (get_payload_position self ≤ i
           < get_payload_position self + Py.len (get_payload_value self)) →
        Py.getitem blob (8 + i) = Some "0"%char.
Proof.
  pose proof (build_payload_cases self) as Hb. cbv zeta in Hb.
  set (header := get_header self) in *.
  set (position := get_payload_position self) in *.
  set (value := get_payload_value self) in *.
  rewrite !decide_False in Hb by lia.
  eexists. split; [exact Hb|].
  assert (length (list_ascii_of_string header) = 8%nat) as Hh8
    by (rewrite len_chars in Hheader; lia).
  assert (Z.of_nat (length (list_ascii_of_string value)) = Py.len value) as Hlv
    by (by rewrite len_chars).
  assert (list_ascii_of_string (header +:+ Py.join (field_area position value))
          = (list_ascii_of_string header ++ replicate (Z.to_nat position) zero)
            ++ list_ascii_of_string value
            ++ replicate (46 - Z.to_nat position - String.length value)%nat zero)
    as Hchars.
  { rewrite chars_app. unfold Py.join, field_area.
    by rewrite list_ascii_of_string_of_list_ascii, <- app_assoc. }
  split; [rewrite len_app, len_join, field_area_length by lia; lia|].
  split.
  - apply chars_inj. rewrite chars_slice.
    + rewrite Hchars.
      rewrite drop_app_length' by (rewrite length_app, length_replicate; lia).
      apply take_app_length'. lia.
    + pose proof (len_nonneg value). lia.
    + rewrite len_app, len_join, field_area_length by lia. lia.
  - intros i Hi Hout. rewrite getitem_chars by lia.
    rewrite Hchars, <- app_assoc.
    rewrite lookup_app_r by lia.
    destruct (decide (i < position)) as [Hlt|Hge].
    + rewrite lookup_app_l by (rewrite length_replicate; lia).
      apply lookup_replicate_2. lia.
    + rewrite lookup_app_r by (rewrite length_replicate; lia).
      rewrite lookup_app_r by (rewrite length_replicate; lia).
      apply lookup_replicate_2. rewrite length_replicate.
      rewrite <- chars_length. unfold Py.len in *. lia.
Qed.

(** C6. [build_payload] raises exactly when the header does not have 8
    characters, or the position is outside [0, 46), or the value runs past
    the end of the field area; the exception is the [ValueError] of the
    first check that fails; otherwise the result is the 8-character header
    followed by a field area of 46 characters, 54 characters in all. *)
Theorem build_payload_raises_iff self :
  let header := get_header self in
  let position := get_payload_position self in
  let value := get_payload_value self in
  (raises (DeviceStatusCommand.build_payload self)
     ↔ Py.len header ≠ 8 ∨ (position < 0 ∨ 46 ≤ position)
       ∨ 46 < position + Py.len value)
  ∧ (Py.len header ≠ 8 →
     DeviceStatusCommand.build_payload self
     = Raise (ValueError (HeaderLength (Py.len header))))
  ∧ (Py.len header = 8 → position < 0 ∨ 46 ≤ position →
     DeviceStatusCommand.build_payload self
     = Raise (ValueError (PositionRange position)))
  ∧ (Py.len header = 8 → 0 ≤ position < 46 → 46 < position + Py.len value →
     DeviceStatusCommand.build_payload self
     = Raise (ValueError (ExceedsBoundary position)))
  ∧ (Py.len header = 8 → 0 ≤ position < 46 → position + Py.len value ≤ 46 →
     ∃ area, DeviceStatusCommand.build_payload self = Ok (header +:+ area)
             ∧ Py.len area = 46 ∧ Py.len (header +:+ area) = 54).
Proof.
  intros header position value.
  pose proof (build_payload_cases self) as Hb. cbv zeta in Hb.
  fold header position value in Hb. rewrite Hb.
  repeat split.
  - repeat case_decide; simpl; tauto.
  - repeat case_decide; simpl; intros; try tauto; lia.
  - intros. by rewrite decide_True.
  - intros. rewrite decide_False, decide_True by tauto. done.
  - intros. rewrite decide_False, decide_False, decide_True by lia. done.
  - intros. rewrite !decide_False by lia. eexists. split; [done|].
    rewrite len_app, len_join, field_area_length by lia. lia.
Qed.

End build_payload.

(** The round trip at the last field of the area: ["F0"] at position 44. *)
Lemma build_payload_round_trip_witness :
  let self := BinaryFieldCommand.mk "00004000" 44 "F0" in
  Py.len (get_header self) = 8
  ∧ 0 ≤ get_payload_position self < 46
  ∧ get_payload_position self + Py.len (get_payload_value self) ≤ 46
  ∧ ∃ blob,
      DeviceStatusCommand.build_payload self = Ok blob
      ∧ Py.len blob = 54
      ∧ Py.slice blob (8 + 44) (8 + 44 + 2) = "F0"
      ∧ ∀ i, 0 ≤ i < 46 → ¬ (44 ≤ i < 44 + 2) →
          Py.getitem blob (8 + i) = Some "0"%char.
Proof.
  intros self.
  assert (Py.len (get_header self) = 8) as H1 by reflexivity.
  assert (0 ≤ get_payload_position self < 46) as H2 by (vm_compute; intuition discriminate).
  assert (get_payload_position self + Py.len (get_payload_value self) ≤ 46) as H3
    by (vm_compute; discriminate).
  repeat split; try (vm_compute; discriminate).
  exact (build_payload_round_trip self H1 H2 H3).
Defined.

(** One command for each of the three checks, and one that passes them. *)
Lemma build_payload_raises_iff_witness :
  DeviceStatusCommand.build_payload (BinaryFieldCommand.mk "0100" 0 "14")
  = Raise (ValueError (HeaderLength 4))
  ∧ DeviceStatusCommand.build_payload (BinaryFieldCommand.mk "01000000" 46 "")
    = Raise (ValueError (PositionRange 46))
  ∧ DeviceStatusCommand.build_payload (BinaryFieldCommand.mk "01000000" 45 "14")
    = Raise (ValueError (ExceedsBoundary 45))
  ∧ ∃ area,
      DeviceStatusCommand.build_payload (BinaryFieldCommand.mk "01000000" 44 "14")
      = Ok ("01000000" +:+ area)
      ∧ Py.len area = 46 ∧ Py.len ("01000000" +:+ area) = 54.
Proof.
  split; [|split; [|split]].
  - destruct (build_payload_raises_iff (BinaryFieldCommand.mk "0100" 0 "14"))
      as (_ & Hheader & _).
    apply Hheader. vm_compute. discriminate.
  - destruct (build_payload_raises_iff (BinaryFieldCommand.mk "01000000" 46 ""))
      as (_ & _ & Hposition & _).
    apply Hposition; [reflexivity | right; vm_compute; discriminate].
  - destruct (build_payload_raises_iff (BinaryFieldCommand.mk "01000000" 45 "14"))
      as (_ & _ & _ & Hboundary & _).
    apply Hboundary;
      [reflexivity | vm_compute; intuition discriminate | reflexivity].
  - destruct (build_payload_raises_iff (BinaryFieldCommand.mk "01000000" 44 "14"))
      as (_ & _ & _ & _ & Hfits).
    apply Hfits;
      [reflexivity | vm_compute; intuition discriminate | vm_compute; discriminate].
Defined.

(** ** Commands and operations *)

Section operations.
Implicit Types (commands : list AnyCommand) (payloads : list DeviceStatusPayload).

(** A comprehension returns a list exactly when every element yields a
    value, and the list holds those values in the order of the elements. *)
Lemma comprehension_Ok {A B} (f : A → result B) (l : list A) (k : list B) :
  comprehension f l = Ok k ↔ Forall2 (λ x y, f x = Ok y) l k.
Proof.
  revert k. induction l as [|x l IH]; intros k; simpl.
  - split; [intros [= <-]; constructor | by inversion 1].
  - destruct (f x) as [y|e] eqn:Hx; simpl.
    + destruct (comprehension f l) as [ys|e] eqn:Hl; simpl.
      * split.
        -- intros [= <-]. constructor; [done | by apply IH].
        -- inversion 1 as [|? y' ? ys' Hy Hys]; subst.
           apply IH in Hys. congruence.
      * split; [done|]. inversion 1 as [|? y' ? ys' Hy Hys]; subst.
        apply IH in Hys. congruence.
    + split; [done|]. inversion 1; congruence.
Qed.

(** C5. For either power state, [PowerOperation(s).get_status_list()] is
    the list of two payloads, in this order: the binary F3 payload, whose
    54-character blob has the header "00020000" and carries ["FF"] (ON) or
    ["00"] (OFF) at position 18 of an otherwise zero field area, and the
    single-value payload ["80"] with the code ["30"] (ON) or ["31"]
    (OFF). *)
Theorem PowerOperation_status_list (s : PowerState.t) :
  let field := match s with PowerState.ON => "FF" | PowerState.OFF => "00" end in
  let literal := match s with PowerState.ON => "30" | PowerState.OFF => "31" end in
  ∃ blob,
    (PowerOperation.__init__ s ≫= get_status_list)
    = Ok [valueBinary "F3" blob; valueSingle "80" literal]
    ∧ Py.len blob = 54
    ∧ blob = "00020000" +:+ Py.join (field_area 18 field)
    ∧ Py.slice (Py.slice_from blob 8) 18 20 = field.
Proof. destruct s; eexists; repeat split. Qed.

(** C8. An [OperationList] cannot be built from an empty list: the
    constructor raises, and [execute_commands] then posts no request;
    [RefreshStateOperation().get_status_list()] is the empty list; and the
    status list of an [OperationList] built from a non-empty list holds
    the payloads of its commands in the order of construction: as many
    payloads as commands, the i-th one produced by the i-th command. *)
Theorem OperationList_status_list :
  OperationList.__init__ [] = Raise (ValueError EmptyOperationList)
  ∧ (∀ client box_info terminal_app_id w,
       SharpOperations.execute_commands client box_info terminal_app_id [] w
       = (Raise (ValueError EmptyOperationList), w))
  ∧ get_status_list RefreshStateOperation.__init__ = Ok []
  ∧ ∀ commands, commands ≠ [] →
      ∃ operation,
        OperationList.__init__ commands = Ok operation
        ∧ OperationList.commands operation = commands
        ∧ get_status_list operation = comprehension any_status_payload commands
        ∧ ∀ payloads,
            get_status_list operation = Ok payloads
            ↔ length commands = length payloads
              ∧ ∀ i command payload,
                  commands !! i = Some command → payloads !! i = Some payload →
                  any_status_payload command = Ok payload.
Proof.
  split; [done|]. split; [done|]. split; [done|].
  intros commands Hne. exists (OperationList.mk commands).
  destruct commands as [|c commands]; [done|].
  split; [done|]. split; [done|]. split; [done|].
  intros payloads. unfold get_status_list, OperationList.get_status_list.
  cbn [OperationList.commands]. rewrite comprehension_Ok.
  apply Forall2_same_length_lookup.
Qed.

(** The status list of an [OperationList] of two commands. *)
Lemma OperationList_status_list_witness :
  let commands := [any (_PowerCommand.__init__ PowerState.ON);
                   any (ChangeModeCommand.__init__ OperatingMode.AUTO)] in
  commands ≠ []
  ∧ ∃ operation,
      OperationList.__init__ commands = Ok operation
      ∧ get_status_list operation
        = Ok [valueSingle "80" "30";
              valueBinary "F3" "010000001000000000000000000000000000000000000000000000"].
Proof.
  intros commands.
  assert (commands ≠ []) as Hne by discriminate.
  split; [exact Hne|].
  destruct OperationList_status_list as (_ & _ & _ & Hlist).
  destruct (Hlist commands Hne) as (operation & Hinit & _ & Hstatus & _).
  exists operation. split; [exact Hinit|]. rewrite Hstatus. reflexivity.
Defined.

End operations.

(** ** Sensor readings *)

Section quality.

(** C9. [QualityLevel.parse] is a total function on the integers with
    the buckets [v > 75], [56 <= v <= 75], [36 <= v < 56], [16 <= v < 36]
    and the rest; the boundary readings 15, 16, 35, 36, 55, 56, 75, 76 map
    to CLEAN, LOW, LOW, MEDIUM, MEDIUM, HIGH, HIGH, VERY_HIGH. *)
Theorem QualityLevel_parse_buckets (v : Z) :
  (75 < v → QualityLevel.parse v = QualityLevel.VERY_HIGH)
  ∧ (56 ≤ v ≤ 75 → QualityLevel.parse v = QualityLevel.HIGH)
  ∧ (36 ≤ v < 56 → QualityLevel.parse v = QualityLevel.MEDIUM)
  ∧ (16 ≤ v < 36 → QualityLevel.parse v = QualityLevel.LOW)
  ∧ (v < 16 → QualityLevel.parse v = QualityLevel.CLEAN)
  ∧ QualityLevel.parse <$> [15; 16; 35; 36; 55; 56; 75; 76]
    = [QualityLevel.CLEAN; QualityLevel.LOW; QualityLevel.LOW;
       QualityLevel.MEDIUM; QualityLevel.MEDIUM; QualityLevel.HIGH;
       QualityLevel.HIGH; QualityLevel.VERY_HIGH].
Proof.
  unfold QualityLevel.parse. repeat split; try reflexivity; intros Hv;
    destruct (Z.gtb_spec v 75), (Z.leb_spec 56 v), (Z.leb_spec v 75),
      (Z.leb_spec 36 v), (Z.ltb_spec v 56), (Z.leb_spec 16 v),
      (Z.ltb_spec v 36); cbn [andb]; try reflexivity; lia.
Qed.

(** One reading inside each bucket; a negative one is CLEAN. *)
Lemma QualityLevel_parse_buckets_witness :
  QualityLevel.parse 100 = QualityLevel.VERY_HIGH
  ∧ QualityLevel.parse 60 = QualityLevel.HIGH
  ∧ QualityLevel.parse 40 = QualityLevel.MEDIUM
  ∧ QualityLevel.parse 20 = QualityLevel.LOW
  ∧ QualityLevel.parse (-3) = QualityLevel.CLEAN.
Proof.
  split; [|split; [|split; [|split]]].
  - apply (QualityLevel_parse_buckets 100). reflexivity.
  - apply (QualityLevel_parse_buckets 60). split; discriminate.
  - apply (QualityLevel_parse_buckets 40). split; [discriminate | reflexivity].
  - apply (QualityLevel_parse_buckets 20). split; [discriminate | reflexivity].
  - apply (QualityLevel_parse_buckets (-3)). reflexivity.
Defined.

End quality.

(** ** The property decoders *)

Section enumerations.

(** The lookup by value returns the member whose value it is given, and
    raises for every other string. *)
Ltac by_cases_on_eqb :=
  repeat match goal with
         | |- context [String.eqb ?v ?c] => destruct (String.eqb_spec v c)
         end.

Lemma OperatingMode_of_value v e :
  OperatingMode.of_value v = Ok e ↔ OperatingMode.value e = v.
Proof.
  unfold OperatingMode.of_value. split.
  - by_cases_on_eqb; intros [= <-]; done.
  - intros <-. by destruct e.
Qed.

Lemma PowerState_of_value v e :
  PowerState.of_value v = Ok e ↔ PowerState.value e = v.
Proof.
  unfold PowerState.of_value. split.
  - by_cases_on_eqb; intros [= <-]; done.
  - intros <-. by destruct e.
Qed.

Lemma HumidificationState_of_value v e :
  HumidificationState.of_value v = Ok e ↔ HumidificationState.value e = v.
Proof.
  unfold HumidificationState.of_value. split.
  - by_cases_on_eqb; intros [= <-]; done.
  - intros <-. by destruct e.
Qed.

Lemma ChildLockState_of_value v e :
  ChildLockState.of_value v = Ok e ↔ ChildLockState.value e = v.
Proof.
  unfold ChildLockState.of_value. split.
  - by_cases_on_eqb; intros [= <-]; done.
  - intros <-. by destruct e.
Qed.

Lemma LEDBrightnessState_of_value v e :
  LEDBrightnessState.of_value v = Ok e ↔ LEDBrightnessState.value e = v.
Proof.
  unfold LEDBrightnessState.of_value. split.
  - by_cases_on_eqb; intros [= <-]; done.
  - intros <-. by destruct e.
Qed.

End enumerations.

Section strip.
Implicit Types (s : string).

Lemma lstrip_length s : (String.length (Py.lstrip s) ≤ String.length s)%nat.
Proof.
  induction s as [|c s IH]; simpl; [done|].
  destruct (Py.isspace c); simpl; lia.
Qed.

Lemma lstrip_same_or_shorter s :
  Py.lstrip s = s ∨ (String.length (Py.lstrip s) < String.length s)%nat.
Proof.
  destruct s as [|c s]; simpl; [by left|].
  destruct (Py.isspace c); [right | by left].
  pose proof (lstrip_length s). lia.
Qed.

Lemma rstrip_same_or_shorter s :
  Py.rstrip s = s ∨ (String.length (Py.rstrip s) < String.length s)%nat.
Proof.
  induction s as [|c s IH]; simpl; [by left|].
  destruct IH as [-> | IH].
  - destruct s; [|by left].
    destruct (Py.isspace c); [right; simpl; lia | by left].
  - right. destruct (Py.rstrip s); [|simpl in *; lia].
    destruct (Py.isspace c); simpl in *; lia.
Qed.

(** Stripping returns the string itself or a shorter one. *)
Lemma strip_same_or_shorter s :
  Py.strip s = s ∨ Py.len (Py.strip s) < Py.len s.
Proof.
  unfold Py.strip, Py.len.
  destruct (lstrip_same_or_shorter s) as [-> | Hl].
  - destruct (rstrip_same_or_shorter s) as [-> | Hr]; [by left | right; lia].
  - right. destruct (rstrip_same_or_shorter (Py.lstrip s)) as [-> | Hr]; lia.
Qed.

End strip.

Section decoders.
Implicit Types (hex_string : string) (decoded : F3Property.t).

(** Once the length check has passed, decoding is the five lookups. *)
Lemma from_hex_of_length_54 hex_string decoded :
  Py.len (Py.strip hex_string) = 54 →
  let payload := Py.slice_from (Py.strip hex_string) 8 in
  F3Property.from_hex hex_string = Ok decoded
  ↔ OperatingMode.value (F3Property.operating_mode decoded) = Py.slice payload 0 2
    ∧ PowerState.value (F3Property.power decoded) = Py.slice payload 18 20
    ∧ HumidificationState.value (F3Property.humidification decoded)
      = Py.slice payload 22 24
    ∧ ChildLockState.value (F3Property.child_lock decoded) = Py.slice payload 28 30
    ∧ LEDBrightnessState.value (F3Property.led_brightness decoded)
      = Py.slice payload 44 46.
Proof.
  intros Hlen payload. unfold F3Property.from_hex. rewrite Hlen.
  cbn [Z.eqb Pos.eqb negb]. fold payload.
  rewrite <- OperatingMode_of_value, <- PowerState_of_value,
    <- HumidificationState_of_value, <- ChildLockState_of_value,
    <- LEDBrightnessState_of_value.
  destruct (OperatingMode.of_value _) as [m|?]; simpl; [|intuition congruence].
  destruct (HumidificationState.of_value _) as [h|?]; simpl; [|intuition congruence].
  destruct (PowerState.of_value _) as [p|?]; simpl; [|intuition congruence].
  destruct (ChildLockState.of_value _) as [c|?]; simpl; [|intuition congruence].
  destruct (LEDBrightnessState.of_value _) as [l|?]; simpl; [|intuition congruence].
  destruct decoded; simpl. intuition congruence.
Qed.

(** C7, as the code has it. [from_hex] strips white space from both ends
    of its input first. It raises the length error whenever the stripped
    string does not have exactly 54 characters. When it has, the decode
    succeeds exactly with the five members whose codes stand at the
    positions 0 (mode), 18 (power), 22 (humidification), 28 (child lock)
    and 44 (LED brightness) of the field area. These are the positions
    that the five commands write: decoding the blob that a command builds
    gives back the state it encodes, with every other field OFF. *)
Theorem F3Property_from_hex_mirrors_encoder :
  (∀ hex_string,
     Py.len (Py.strip hex_string) ≠ 54 →
     F3Property.from_hex hex_string
     = Raise (ValueError (F3Length (Py.len (Py.strip hex_string)))))
  ∧ (∀ hex_string decoded,
       Py.len (Py.strip hex_string) = 54 →
       let payload := Py.slice_from (Py.strip hex_string) 8 in
       F3Property.from_hex hex_string = Ok decoded
       ↔ OperatingMode.value (F3Property.operating_mode decoded)
           = Py.slice payload 0 2
         ∧ PowerState.value (F3Property.power decoded) = Py.slice payload 18 20
         ∧ HumidificationState.value (F3Property.humidification decoded)
           = Py.slice payload 22 24
         ∧ ChildLockState.value (F3Property.child_lock decoded)
           = Py.slice payload 28 30
         ∧ LEDBrightnessState.value (F3Property.led_brightness decoded)
           = Py.slice payload 44 46)
  ∧ (∀ mode,
       DeviceStatusCommand.build_payload (ChangeModeCommand.__init__ mode)
         ≫= F3Property.from_hex
       = Ok (F3Property.mk mode HumidificationState.OFF PowerState.OFF
               ChildLockState.OFF LEDBrightnessState.OFF))
  ∧ (∀ state,
       DeviceStatusCommand.build_payload (_PowerStateCommand.__init__ state)
         ≫= F3Property.from_hex
       = Ok (F3Property.mk OperatingMode.OFF HumidificationState.OFF state
               ChildLockState.OFF LEDBrightnessState.OFF))
  ∧ (∀ state,
       DeviceStatusCommand.build_payload (HumidificationCommand.__init__ state)
         ≫= F3Property.from_hex
       = Ok (F3Property.mk OperatingMode.OFF state PowerState.OFF
               ChildLockState.OFF LEDBrightnessState.OFF))
  ∧ (∀ state,
       DeviceStatusCommand.build_payload (ChildLockCommand.__init__ state)
         ≫= F3Property.from_hex
       = Ok (F3Property.mk OperatingMode.OFF HumidificationState.OFF
               PowerState.OFF state LEDBrightnessState.OFF))
  ∧ (∀ state,
       DeviceStatusCommand.build_payload (LEDBrightnessCommand.__init__ state)
         ≫= F3Property.from_hex
       = Ok (F3Property.mk OperatingMode.OFF HumidificationState.OFF
               PowerState.OFF ChildLockState.OFF state)).
Proof.
  split; [|split; [|repeat split]].
  - intros hex_string Hlen. unfold F3Property.from_hex.
    by rewrite (proj2 (Z.eqb_neq _ 54)).
  - intros hex_string decoded Hlen. by apply from_hex_of_length_54.
  - intros []; reflexivity.
  - intros []; reflexivity.
  - intros []; reflexivity.
  - intros []; reflexivity.
  - intros []; reflexivity.
Qed.

(** A blob with one space after it, and a short string. *)
Lemma F3Property_from_hex_mirrors_encoder_witness :
  F3Property.from_hex "0002000000"
  = Raise (ValueError (F3Length 10))
  ∧ F3Property.from_hex "00020000000000000000000000FF00000000000000000000000000 "
    = Ok (F3Property.mk OperatingMode.OFF HumidificationState.OFF PowerState.ON
            ChildLockState.OFF LEDBrightnessState.OFF).
Proof.
  destruct F3Property_from_hex_mirrors_encoder as (Hlength & Hdecode & _).
  split.
  - apply (Hlength "0002000000"). vm_compute. discriminate.
  - apply (Hdecode "00020000000000000000000000FF00000000000000000000000000 ").
    + reflexivity.
    + repeat split.
Defined.

(** C7 as stated fails: an input of 55 characters, a blob followed by one
    space, is decoded without a length error. *)
Lemma F3Property_from_hex_accepts_55_characters :
  let hex_string := "00020000000000000000000000FF00000000000000000000000000 " in
  Py.len hex_string = 55
  ∧ F3Property.from_hex hex_string
    = Ok (F3Property.mk OperatingMode.OFF HumidificationState.OFF PowerState.ON
            ChildLockState.OFF LEDBrightnessState.OFF).
Proof. split; reflexivity. Qed.

(** C10. For an input of 54 characters, [from_hex] raises whenever the
    code at one of the five decoded positions of the field area is not the
    value of a member of its enumeration: the length alone does not make
    the decode succeed, and no default is returned. *)
Theorem F3Property_from_hex_rejects_unknown_code hex_string :
  Py.len hex_string = 54 →
  let payload := Py.slice_from hex_string 8 in
  ¬ member OperatingMode.value (Py.slice payload 0 2)
  ∨ ¬ member PowerState.value (Py.slice payload 18 20)
  ∨ ¬ member HumidificationState.value (Py.slice payload 22 24)
  ∨ ¬ member ChildLockState.value (Py.slice payload 28 30)
  ∨ ¬ member LEDBrightnessState.value (Py.slice payload 44 46) →
  raises (F3Property.from_hex hex_string).
Proof.
  intros Hlen payload Hcode.
  destruct (F3Property.from_hex hex_string) as [decoded|e] eqn:Hdecode; [|done].
  exfalso. destruct (strip_same_or_shorter hex_string) as [Hsame | Hshort].
  - apply from_hex_of_length_54 in Hdecode; [|by rewrite Hsame].
    rewrite Hsame in Hdecode. fold payload in Hdecode.
    destruct Hdecode as (Hm & Hp & Hh & Hc & Hl).
    destruct Hcode as [H|[H|[H|[H|H]]]]; apply H; eexists; eassumption.
  - unfold F3Property.from_hex in Hdecode.
    rewrite (proj2 (Z.eqb_neq _ 54)) in Hdecode by lia. done.
Qed.

(** A blob of 54 characters whose power field holds ["FE"]. *)
Lemma F3Property_from_hex_rejects_unknown_code_witness :
  let hex_string := "00020000000000000000000000FE00000000000000000000000000" in
  Py.len hex_string = 54
  ∧ ¬ member PowerState.value (Py.slice (Py.slice_from hex_string 8) 18 20)
  ∧ raises (F3Property.from_hex hex_string).
Proof.
  intros hex_string.
  assert (Py.len hex_string = 54) as Hlen by reflexivity.
  assert (¬ member PowerState.value (Py.slice (Py.slice_from hex_string 8) 18 20))
    as Hcode by (intros [[] [=]]).
  split; [exact Hlen|]. split; [exact Hcode|].
  apply (F3Property_from_hex_rejects_unknown_code hex_string Hlen).
  right. left. exact Hcode.
Defined.


(** C3 at a failing input. A response whose F1 entry has an empty blob and
    whose F2 entry has a blob of two bytes is decoded without an error:
    the bytes that are missing read as 0, so the F1 snapshot is all zero
    and the F2 snapshot is CLEAN, CLEAN, CLEAN, UNKNOWN. The same blobs
    under the status code F3 make the decode raise. *)
Theorem from_api_response_defaults_short_blobs :
  let entry status_code blob :=
    {| Json.statusCode := Some status_code;
       Json.valueBinary := Some {| Json.code := Some blob |} |} in
  let response status :=
    {| Json.deviceProperty :=
         Some {| Json.echonetNode := Some "node"; Json.label := Some "label";
                 Json.status_list := Some status |} |} in
  DeviceProperties.from_api_response (response [entry "F1" ""; entry "F2" "0A0B"])
  = Ok {| DeviceProperties.echonet_node := "node";
          DeviceProperties.label := "label";
          DeviceProperties.f1_property := Some (F1Property.mk 0 0 0);
          DeviceProperties.f2_property :=
            Some (F2Property.mk QualityLevel.CLEAN QualityLevel.CLEAN
                    QualityLevel.CLEAN WaterContainerState.UNKNOWN);
          DeviceProperties.f3_property := None |}
  ∧ DeviceProperties.from_api_response (response [entry "F3" ""])
    = Raise (ValueError (F3Length 0))
  ∧ DeviceProperties.from_api_response (response [entry "F3" "0A0B"])
    = Raise (ValueError (F3Length 4)).
Proof. repeat split. Qed.

End decoders.

(** ** The submit-and-poll loop *)

Section execution.
Context {Op : Type} `{!Operation Op}.
Implicit Types (client : SharpClient) (box_info : BoxInfo) (w : world)
  (operation : Op) (range : list Z) (k : nat).

Lemma poll_attempts_log r w : poll_attempts (log r w) = poll_attempts w.
Proof. done. Qed.

Lemma poll_attempts_sleep n w : poll_attempts (sleep n w) = poll_attempts w.
Proof. done. Qed.

Lemma poll_attempts_post client r w :
  poll_attempts (post client r w).2
  = (poll_attempts w + if is_poll r then 1 else 0)%nat.
Proof.
  unfold poll_attempts, post. cbn [snd posted].
  rewrite List.filter_app, length_app. f_equal.
  destruct r; reflexivity.
Qed.

Lemma last_logged_log r w : last_logged (log r w) = Some r.
Proof. unfold last_logged, log. cbn [logged]. apply last_snoc. Qed.

(** The polls among the requests of an execution that was submitted. *)
Lemma poll_attempts_requests w w' box_info terminal_app_id status_list
    operation_id (n : nat) :
  posted w'
  = posted w ++ control_request box_info terminal_app_id status_list
                :: replicate n (poll_request box_info operation_id) →
  poll_attempts w' = (poll_attempts w + n)%nat.
Proof.
  intros Hposted. unfold poll_attempts.
  rewrite Hposted, List.filter_app, length_app.
  f_equal. cbn [List.filter control_request is_poll]. clear Hposted.
  induction n as [|n IH]; [done|]. cbn. by rewrite IH.
Qed.

(** One pass of the loop body over a pending response: one more second
    slept, one more poll posted, and the loop goes on. *)
Lemma status_checks_step_pending client box_info operation_id i range w :
  pending (post_json client (length (posted w))
             (poll_request box_info operation_id)) = true →
  ∃ w1,
    SharpOperations.status_checks client box_info operation_id (i :: range) w
    = SharpOperations.status_checks client box_info operation_id range w1
    ∧ posted w1 = posted w ++ [poll_request box_info operation_id]
    ∧ slept w1 = slept w + 1.
Proof.
  intros Hpending. cbn [SharpOperations.status_checks post sleep posted].
  fold (poll_request box_info operation_id).
  destruct (post_json client _ _) as [json|]; [|done].
  unfold pending, first_result in Hpending.
  destruct (Reply.resultList json) as [[|result results]|];
    try by eexists; split; [reflexivity|].
  apply andb_true_iff in Hpending as [Herror Hsuccess].
  unfold is_error, is_success in *.
  apply negb_true_iff in Herror, Hsuccess. rewrite Herror, Hsuccess.
  by eexists; split; [reflexivity|].
Qed.

(** The loop passes over a prefix of pending responses. *)
Lemma status_checks_pending_prefix client box_info operation_id k : ∀ range w,
  (k ≤ length range)%nat →
  (∀ j, (j < k)%nat →
        pending (post_json client (length (posted w) + j)
                   (poll_request box_info operation_id)) = true) →
  ∃ wk,
    SharpOperations.status_checks client box_info operation_id range w
    = SharpOperations.status_checks client box_info operation_id (drop k range) wk
    ∧ posted wk = posted w ++ replicate k (poll_request box_info operation_id)
    ∧ slept wk = slept w + Z.of_nat k.
Proof.
  induction k as [|k IH]; intros range w Hk Hpending.
  - exists w. rewrite drop_0, app_nil_r. repeat split; lia.
  - destruct range as [|i range]; [simpl in Hk; lia|].
    destruct (status_checks_step_pending client box_info operation_id i range w)
      as (w1 & Hstep & Hposted & Hslept).
    { rewrite <- (Nat.add_0_r (length (posted w))). apply Hpending. lia. }
    destruct (IH range w1) as (wk & Hrest & Hposted' & Hslept').
    { simpl in Hk. lia. }
    { intros j Hj. rewrite Hposted, length_app. cbn [length].
      replace (length (posted w) + 1 + j)%nat
        with (length (posted w) + S j)%nat by lia.
      apply Hpending. lia. }
    exists wk. rewrite Hstep, Hrest. split; [done|].
    rewrite Hposted', Hslept', Hposted, Hslept, <- app_assoc. split; [done | lia].
Qed.

(** The loop uses its range up over pending responses. *)
Lemma status_checks_all_pending client box_info operation_id range w :
  (∀ j, (j < length range)%nat →
        pending (post_json client (length (posted w) + j)
                   (poll_request box_info operation_id)) = true) →
  ∃ w',
    SharpOperations.status_checks client box_info operation_id range w
    = (Completed, w')
    ∧ posted w'
      = posted w ++ replicate (length range) (poll_request box_info operation_id)
    ∧ slept w' = slept w + Z.of_nat (length range).
Proof.
  intros Hpending.
  destruct (status_checks_pending_prefix client box_info operation_id
              (length range) range w) as (wk & -> & Hposted & Hslept);
    [done | done |].
  rewrite drop_all. by exists wk.
Qed.

(** The first response that is not pending decides how the loop leaves. *)
Lemma status_checks_first_decided client box_info operation_id k range w :
  (k < length range)%nat →
  (∀ j, (j < k)%nat →
        pending (post_json client (length (posted w) + j)
                   (poll_request box_info operation_id)) = true) →
  pending (post_json client (length (posted w) + k)
             (poll_request box_info operation_id)) = false →
  ∃ w',
    SharpOperations.status_checks client box_info operation_id range w
    = (match first_result (post_json client (length (posted w) + k)
                             (poll_request box_info operation_id)) with
       | Some result => Return (negb (is_error result))
       | None => Exception
       end, w')
    ∧ posted w'
      = posted w ++ replicate (S k) (poll_request box_info operation_id)
    ∧ slept w' = slept w + Z.of_nat (S k)
    ∧ ∀ result,
        first_result (post_json client (length (posted w) + k)
                        (poll_request box_info operation_id)) = Some result →
        (is_error result = false → is_success result = true)
        ∧ last_logged w'
          = Some (if is_error result
                  then error_operation_failed operation_id
                         (Reply.errorCode result)
                  else info_operation_completed operation_id
                         (Reply.epc result) (Reply.edt result)).
Proof.
  intros Hk Hpending Hdecided.
  destruct (status_checks_pending_prefix client box_info operation_id k
              range w) as (wk & -> & Hposted & Hslept); [lia | done |].
  assert (length (posted wk) = (length (posted w) + k)%nat) as Hwk
    by (rewrite Hposted, length_app, length_replicate; lia).
  destruct (lookup_lt_is_Some_2 range k) as [i Hi]; [done|].
  rewrite (drop_S _ _ _ Hi).
  cbn [SharpOperations.status_checks post sleep posted slept].
  fold (poll_request box_info operation_id). rewrite Hwk.
  assert (replicate (S k) (poll_request box_info operation_id)
          = replicate k (poll_request box_info operation_id)
            ++ [poll_request box_info operation_id]) as Hsnoc
    by (by rewrite <- replicate_cons_app).
  unfold pending, first_result in *.
  destruct (post_json client (length (posted w) + k)
              (poll_request box_info operation_id)) as [json|].
  - destruct (Reply.resultList json) as [[|result results]|]; try done.
    apply andb_false_iff in Hdecided. unfold is_error, is_success in *.
    case_bool_decide as Herror.
    + eexists. split; [reflexivity|]. cbn [log posted slept].
      rewrite Hposted, Hslept, Hsnoc, <- app_assoc.
      split; [done|]. split; [lia|]. intros ? [= <-].
      rewrite bool_decide_eq_true_2 by done. split; [done|].
      apply last_logged_log.
    + destruct Hdecided as [Hdecided | Hdecided];
        apply negb_false_iff in Hdecided; [done|]. rewrite Hdecided.
      eexists. split; [reflexivity|]. cbn [log posted slept].
      rewrite Hposted, Hslept, Hsnoc, <- app_assoc.
      split; [done|]. split; [lia|]. intros ? [= <-].
      rewrite bool_decide_eq_false_2 by done. split; [done|].
      apply last_logged_log.
  - eexists. split; [reflexivity|]. cbn [posted slept].
    rewrite Hposted, Hslept, Hsnoc, <- app_assoc.
    split; [done|]. split; [lia | done].
Qed.

(** Among the answers to [n] polls either all are pending or one is the
    first that is not. *)
Lemma first_not_pending (answer : nat → post_result) (n : nat) :
  (∀ j, (j < n)%nat → pending (answer j) = true)
  ∨ ∃ k, (k < n)%nat
         ∧ (∀ j, (j < k)%nat → pending (answer j) = true)
         ∧ pending (answer k) = false.
Proof.
  induction n as [|n [IH | (k & Hk & Hprefix & Hdecided)]].
  - left. intros j Hj. lia.
  - destruct (pending (answer n)) eqn:Hn.
    + left. intros j Hj. destruct (decide (j = n)) as [->|]; [done|].
      apply IH. lia.
    + right. exists n. split; [lia | done].
  - right. exists k. split; [lia | done].
Qed.

(** An accepted submission: the execution is the loop over ten checks. *)
Lemma execute_operation_submitted client box_info terminal_app_id operation
    status_list operation_id w :
  get_status_list operation = Ok status_list →
  operation_id_of (post_json client (length (posted w))
                     (control_request box_info terminal_app_id status_list))
  = Some operation_id →
  let w0 :=
    log (info_control_request_sent (box_id box_info) operation_id)
      {| posted := posted w
                   ++ [control_request box_info terminal_app_id status_list];
         slept := slept w; logged := logged w |} in
  SharpOperations.execute_operation client box_info terminal_app_id operation w
  = match SharpOperations.status_checks client box_info operation_id
            (seqZ 0 10) w0 with
    | (Return value, w') => (Ok value, w')
    | (Exception, w') =>
        (Ok false, log (error_during_device_control (box_id box_info)) w')
    | (Completed, w') =>
        (Ok false, log (info_checks_completed_without_success operation_id) w')
    end.
Proof.
  intros Hlist Hid w0. unfold SharpOperations.execute_operation. rewrite Hlist.
  unfold SharpOperations.control_and_poll, post.
  fold (control_request box_info terminal_app_id status_list).
  unfold operation_id_of in Hid.
  destruct (post_json client _ _) as [json|]; [|done].
  destruct (Reply.controlList json) as [[|first rest]|]; try done.
  destruct (truthy_str (Reply.id first)); [|done]. rewrite Hid.
  cbn [Json.get]. fold w0.
  by destruct (SharpOperations.status_checks _ _ _ _ _) as [[[]| |] w'].
Qed.

(** A submission that is not accepted: one request and one error record,
    the one of the [except] clause when the transport raised. *)
Lemma execute_operation_not_submitted client box_info terminal_app_id
    operation status_list w :
  get_status_list operation = Ok status_list →
  operation_id_of (post_json client (length (posted w))
                     (control_request box_info terminal_app_id status_list))
  = None →
  SharpOperations.execute_operation client box_info terminal_app_id operation w
  = (Ok false,
     log (match post_json client (length (posted w))
                  (control_request box_info terminal_app_id status_list) with
          | Throws => error_during_device_control (box_id box_info)
          | Returns _ => error_no_operation_id (box_id box_info)
          end)
       {| posted := posted w
                    ++ [control_request box_info terminal_app_id status_list];
          slept := slept w; logged := logged w |}).
Proof.
  intros Hlist Hid. unfold SharpOperations.execute_operation. rewrite Hlist.
  unfold SharpOperations.control_and_poll, post.
  fold (control_request box_info terminal_app_id status_list).
  unfold operation_id_of in Hid.
  destruct (post_json client (length (posted w))
              (control_request box_info terminal_app_id status_list))
    as [json|]; [|done].
  destruct (Reply.controlList json) as [[|first rest]|]; try done.
  destruct (truthy_str (Reply.id first)) eqn:Htruthy; [|done].
  by destruct (Reply.id first).
Qed.

(** An accepted submission whose polls are decided by the response that
    follows [k] pending ones. *)
Lemma execute_operation_decided client box_info terminal_app_id operation
    status_list operation_id w k :
  get_status_list operation = Ok status_list →
  operation_id_of (post_json client (length (posted w))
                     (control_request box_info terminal_app_id status_list))
  = Some operation_id →
  (k < 10)%nat →
  (∀ j, (j < k)%nat →
        pending (post_json client (length (posted w) + 1 + j)
                   (poll_request box_info operation_id)) = true) →
  pending (post_json client (length (posted w) + 1 + k)
             (poll_request box_info operation_id)) = false →
  ∃ w',
    SharpOperations.execute_operation client box_info terminal_app_id operation w
    = (Ok match first_result (post_json client (length (posted w) + 1 + k)
                                (poll_request box_info operation_id)) with
          | Some result => negb (is_error result)
          | None => false
          end, w')
    ∧ poll_attempts w' = (poll_attempts w + S k)%nat
    ∧ ∀ result,
        first_result (post_json client (length (posted w) + 1 + k)
                        (poll_request box_info operation_id)) = Some result →
        (is_error result = false → is_success result = true)
        ∧ last_logged w'
          = Some (if is_error result
                  then error_operation_failed operation_id
                         (Reply.errorCode result)
                  else info_operation_completed operation_id
                         (Reply.epc result) (Reply.edt result)).
Proof.
  intros Hlist Hid Hk Hpending Hdecided.
  rewrite (execute_operation_submitted _ _ _ _ _ _ _ Hlist Hid). cbv zeta.
  set (w0 := log _ _).
  assert (length (posted w0) = (length (posted w) + 1)%nat) as Hw0
    by (cbn; by rewrite length_app).
  destruct (status_checks_first_decided client box_info operation_id k
              (seqZ 0 10) w0) as (w' & -> & Hposted & _ & Hlast).
  { rewrite length_seqZ. lia. }
  { intros j Hj. rewrite Hw0. by apply Hpending. }
  { by rewrite Hw0. }
  rewrite Hw0 in *. subst w0. cbn [log posted] in Hposted.
  rewrite <- app_assoc in Hposted. cbn [app] in Hposted.
  destruct (first_result _) as [result|] eqn:Hresult.
  - exists w'. split; [done|].
    split; [by eapply poll_attempts_requests|]. intros ? [= <-]. by apply Hlast.
  - eexists. split; [reflexivity|]. rewrite poll_attempts_log.
    split; [by eapply poll_attempts_requests | done].
Qed.

(** An accepted submission whose ten polls are all pending. *)
Lemma execute_operation_undecided client box_info terminal_app_id operation
    status_list operation_id w :
  get_status_list operation = Ok status_list →
  operation_id_of (post_json client (length (posted w))
                     (control_request box_info terminal_app_id status_list))
  = Some operation_id →
  (∀ j, (j < 10)%nat →
        pending (post_json client (length (posted w) + 1 + j)
                   (poll_request box_info operation_id)) = true) →
  ∃ w',
    SharpOperations.execute_operation client box_info terminal_app_id operation w
    = (Ok false,
       log (info_checks_completed_without_success operation_id) w')
    ∧ poll_attempts w' = (poll_attempts w + 10)%nat.
Proof.
  intros Hlist Hid Hpending.
  rewrite (execute_operation_submitted _ _ _ _ _ _ _ Hlist Hid). cbv zeta.
  set (w0 := log _ _).
  assert (length (posted w0) = (length (posted w) + 1)%nat) as Hw0
    by (cbn; by rewrite length_app).
  destruct (status_checks_all_pending client box_info operation_id
              (seqZ 0 10) w0) as (w' & -> & Hposted & _).
  { rewrite length_seqZ. intros j Hj. rewrite Hw0. apply Hpending. lia. }
  exists w'. split; [done|]. subst w0. cbn [log posted] in Hposted.
  rewrite <- app_assoc in Hposted. cbn [app] in Hposted.
  by eapply poll_attempts_requests.
Qed.

(** C4, as the code has it. [execute_operation] returns a Boolean and
    nothing else. It is [True] exactly when a poll reports success: the
    control response carries an operation id, and the first poll response
    that is not pending, among the ten, has a first entry with no error
    code and the status "unmatch" or "success". It is [False] when the
    submission fails, by an exception of the transport or by a response
    without an operation id, and no poll is made then; when the device
    reports the status "error" in the poll that follows [k] pending ones;
    and when all ten polls are pending. The value returned is the same for
    an error and for a timeout: only the record logged last (and the number
    of polls) tells the failures apart. *)
Theorem execute_operation_returns_boolean client box_info terminal_app_id
    operation status_list w :
  get_status_list operation = Ok status_list →
  let submission :=
    post_json client (length (posted w))
      (control_request box_info terminal_app_id status_list) in
  let poll operation_id k :=
    post_json client (length (posted w) + 1 + k)
      (poll_request box_info operation_id) in
  ∃ value w',
    SharpOperations.execute_operation client box_info terminal_app_id operation w
    = (Ok value, w')
    ∧ (value = true ↔
       ∃ operation_id k result,
         operation_id_of submission = Some operation_id
         ∧ (k < 10)%nat
         ∧ (∀ j, (j < k)%nat → pending (poll operation_id j) = true)
         ∧ first_result (poll operation_id k) = Some result
         ∧ Reply.status result ≠ Some "error"
         ∧ Reply.errorCode result = None
         ∧ (Reply.status result = Some "unmatch"
            ∨ Reply.status result = Some "success"))
    ∧ (submission = Throws →
       value = false
       ∧ poll_attempts w' = poll_attempts w
       ∧ last_logged w' = Some (error_during_device_control (box_id box_info)))
    ∧ (∀ json,
         submission = Returns json → operation_id_of submission = None →
         value = false
         ∧ poll_attempts w' = poll_attempts w
         ∧ last_logged w' = Some (error_no_operation_id (box_id box_info)))
    ∧ (∀ operation_id k result,
         operation_id_of submission = Some operation_id →
         (k < 10)%nat →
         (∀ j, (j < k)%nat → pending (poll operation_id j) = true) →
         first_result (poll operation_id k) = Some result →
         Reply.status result = Some "error" →
         value = false
         ∧ poll_attempts w' = (poll_attempts w + S k)%nat
         ∧ last_logged w'
           = Some (error_operation_failed operation_id (Reply.errorCode result)))
    ∧ (∀ operation_id,
         operation_id_of submission = Some operation_id →
         (∀ j, (j < 10)%nat → pending (poll operation_id j) = true) →
         value = false
         ∧ poll_attempts w' = (poll_attempts w + 10)%nat
         ∧ last_logged w'
           = Some (info_checks_completed_without_success operation_id)).
Proof.
  intros Hlist submission poll.
  assert (∃ value w',
            SharpOperations.execute_operation client box_info terminal_app_id
              operation w = (Ok value, w')) as (value & w' & Hrun).
  { unfold SharpOperations.execute_operation. rewrite Hlist.
    destruct (SharpOperations.control_and_poll _ _ _ _ _) as [[value|] w'];
      by eexists _, _. }
  assert (∀ result, is_success result = true ↔
            Reply.errorCode result = None
            ∧ (Reply.status result = Some "unmatch"
               ∨ Reply.status result = Some "success")) as Hsuccess.
  { intros result. unfold is_success.
    rewrite andb_true_iff, !bool_decide_eq_true, !elem_of_cons, elem_of_nil.
    tauto. }
  assert (∀ result, is_error result = true ↔
            Reply.status result = Some "error") as Herror
    by (intros result; apply bool_decide_eq_true).
  assert (∀ operation_id k result,
            first_result (poll operation_id k) = Some result →
            is_error result = true ∨ is_success result = true →
            pending (poll operation_id k) = false) as Hterminal.
  { intros operation_id k result Hresult Hor. unfold pending.
    rewrite Hresult. destruct (poll operation_id k); [|done].
    destruct Hor as [-> | ->]; [done | by rewrite andb_false_r]. }
  exists value, w'. split; [exact Hrun|].
  split; [split|split; [|split; [|split]]].
  - (* [True] only after a successful poll *)
    intros ->.
    destruct (operation_id_of submission) as [operation_id|] eqn:Hid;
      [|by rewrite (execute_operation_not_submitted _ _ _ _ _ _ Hlist Hid)
          in Hrun].
    destruct (first_not_pending (poll operation_id) 10)
      as [Hpending | (k & Hk & Hpending & Hdecided)].
    + destruct (execute_operation_undecided _ _ _ _ _ _ _ Hlist Hid Hpending)
        as (w'' & Hrun' & _). by rewrite Hrun' in Hrun.
    + destruct (execute_operation_decided _ _ _ _ _ _ _ _ Hlist Hid Hk
                  Hpending Hdecided) as (w'' & Hrun' & _ & Hlast).
      rewrite Hrun' in Hrun. fold (poll operation_id k) in Hrun, Hlast.
      destruct (first_result (poll operation_id k)) as [result|] eqn:Hresult;
        [|done].
      injection Hrun as Hvalue _. apply negb_true_iff in Hvalue.
      destruct (Hlast result eq_refl) as [Hthen _].
      exists operation_id, k, result. repeat (split; [done|]).
      split; [by rewrite <- Herror, Hvalue|]. by apply Hsuccess, Hthen.
  - (* a successful poll gives [True] *)
    intros (operation_id & k & result & Hid & Hk & Hpending & Hresult
            & Hno_error & Hclean).
    apply Hsuccess in Hclean.
    destruct (execute_operation_decided _ _ _ _ _ _ _ _ Hlist Hid Hk Hpending)
      as (w'' & Hrun' & _); [by eapply Hterminal; [|right]|].
    rewrite Hrun' in Hrun. fold (poll operation_id k) in Hrun.
    rewrite Hresult in Hrun. injection Hrun as <- _.
    apply negb_true_iff, not_true_is_false. by rewrite Herror.
  - (* the transport raises on the control request *)
    intros Hthrows.
    assert (operation_id_of submission = None) as Hid by by rewrite Hthrows.
    rewrite (execute_operation_not_submitted _ _ _ _ _ _ Hlist Hid) in Hrun.
    fold submission in Hrun. rewrite Hthrows in Hrun.
    injection Hrun as <- <-. rewrite last_logged_log.
    split; [done|]. split; [|done].
    unfold poll_attempts. cbn [log posted].
    rewrite List.filter_app, length_app. cbn. lia.
  - (* the control response has no operation id *)
    intros json Hjson Hid.
    rewrite (execute_operation_not_submitted _ _ _ _ _ _ Hlist Hid) in Hrun.
    fold submission in Hrun. rewrite Hjson in Hrun.
    injection Hrun as <- <-. rewrite last_logged_log.
    split; [done|]. split; [|done].
    unfold poll_attempts. cbn [log posted].
    rewrite List.filter_app, length_app. cbn. lia.
  - (* the device reports an error *)
    intros operation_id k result Hid Hk Hpending Hresult Hstatus.
    apply Herror in Hstatus.
    destruct (execute_operation_decided _ _ _ _ _ _ _ _ Hlist Hid Hk Hpending)
      as (w'' & Hrun' & Hpolls & Hlast); [by eapply Hterminal; [|left]|].
    rewrite Hrun' in Hrun. fold (poll operation_id k) in Hrun, Hlast.
    destruct (Hlast result Hresult) as [_ Hrecord].
    rewrite Hresult, Hstatus in Hrun. rewrite Hstatus in Hrecord.
    by injection Hrun as <- <-.
  - (* the ten polls are used up *)
    intros operation_id Hid Hpending.
    destruct (execute_operation_undecided _ _ _ _ _ _ _ Hlist Hid Hpending)
      as (w'' & Hrun' & Hpolls).
    rewrite Hrun' in Hrun. injection Hrun as <- <-.
    by rewrite last_logged_log, poll_attempts_log.
Qed.


(** C2, as the code has it. With the poll responses injected: after two
    polls without a result and a third that reports "success" with no
    error code, [execute_operation] returns [True] after exactly 3 poll
    attempts; when the first poll reports "error" with the code "E1" it
    returns [False] after that single attempt, the code only logged; and
    after 10 polls without a result it returns [False], having made
    exactly 10 attempts. Responses left in the script are never asked
    for. *)
Theorem execute_operation_poll_simulation box_info terminal_app_id operation
    status_list operation_id (unused : list post_result) :
  get_status_list operation = Ok status_list →
  operation_id ≠ "" →
  let execute polls :=
    SharpOperations.execute_operation
      (Script.client (Script.submitted operation_id) polls)
      box_info terminal_app_id operation start in
  (∃ w,
     execute ([Script.no_result; Script.no_result;
               Script.outcome "success" None] ++ unused) = (Ok true, w)
     ∧ poll_attempts w = 3%nat
     ∧ last_logged w = Some (info_operation_completed operation_id None None))
  ∧ (∃ w,
       execute (Script.outcome "error" (Some "E1") :: unused) = (Ok false, w)
       ∧ poll_attempts w = 1%nat
       ∧ last_logged w
         = Some (error_operation_failed operation_id (Some "E1")))
  ∧ (∃ w,
       execute (replicate 10 Script.no_result ++ unused) = (Ok false, w)
       ∧ poll_attempts w = 10%nat
       ∧ last_logged w
         = Some (info_checks_completed_without_success operation_id)).
Proof.
  intros Hlist Hid execute. subst execute. cbv beta.
  unfold SharpOperations.execute_operation. rewrite Hlist.
  destruct operation_id as [|c operation_id]; [done|].
  split; [|split];
    match goal with
    | |- ∃ w, ?run = _ ∧ _ =>
        let final := eval vm_compute in (snd run) in exists final
    end;
    (split; [|split]); vm_compute; reflexivity.
Qed.

End execution.

(** The simulation run on a refresh operation. *)
Lemma execute_operation_poll_simulation_witness :
  let execute polls :=
    SharpOperations.execute_operation
      (Script.client (Script.submitted "operation-1") polls)
      Script.box "terminal" RefreshStateOperation.__init__ start in
  get_status_list RefreshStateOperation.__init__ = Ok []
  ∧ "operation-1" ≠ ""
  ∧ (∃ w, execute [Script.no_result; Script.no_result;
                   Script.outcome "success" None] = (Ok true, w)
          ∧ poll_attempts w = 3%nat)
  ∧ (∃ w, execute [Script.outcome "error" (Some "E1")] = (Ok false, w)
          ∧ poll_attempts w = 1%nat)
  ∧ (∃ w, execute (replicate 10 Script.no_result) = (Ok false, w)
          ∧ poll_attempts w = 10%nat).
Proof.
  intros execute.
  assert (get_status_list RefreshStateOperation.__init__ = Ok []) as Hlist
    by reflexivity.
  assert ("operation-1" ≠ "") as Hid by discriminate.
  split; [exact Hlist|]. split; [exact Hid|].
  destruct (execute_operation_poll_simulation Script.box "terminal"
              RefreshStateOperation.__init__ [] "operation-1" [] Hlist Hid)
    as ((w1 & H1 & Hn1 & _) & (w2 & H2 & Hn2 & _) & (w3 & H3 & Hn3 & _)).
  split; [|split].
  - exists w1. split; [exact H1 | exact Hn1].
  - exists w2. split; [exact H2 | exact Hn2].
  - exists w3. split; [exact H3 | exact Hn3].
Defined.

(** C2 as stated fails: the value returned after the error "E1" and the
    value returned after ten polls without a result are the same, so no
    reading of the returned value makes one of them [Error("E1")] and the
    other [Timeout]. *)
Lemma execute_operation_result_reads_as_no_outcome :
  let returned polls :=
    (SharpOperations.execute_operation
       (Script.client (Script.submitted "operation-1") polls)
       Script.box "terminal" RefreshStateOperation.__init__ start).1 in
  ¬ ∃ reading : result bool → OperationResult,
      reading (returned [Script.no_result; Script.no_result;
                         Script.outcome "success" None]) = Success
      ∧ reading (returned [Script.outcome "error" (Some "E1")]) = Error "E1"
      ∧ reading (returned (replicate 10 Script.no_result)) = Timeout.
Proof.
  intros returned (reading & _ & Herror & Htimeout).
  vm_compute in Herror, Htimeout. congruence.
Qed.

(** One execution that the device fails with "E1" at the first poll, and one
    that uses up its ten polls. *)
Lemma execute_operation_returns_boolean_witness :
  get_status_list RefreshStateOperation.__init__ = Ok []
  ∧ (∃ value w',
       SharpOperations.execute_operation
         (Script.client (Script.submitted "operation-1")
            [Script.outcome "error" (Some "E1")])
         Script.box "terminal" RefreshStateOperation.__init__ start
       = (Ok value, w')
       ∧ value = false
       ∧ poll_attempts w' = 1%nat
       ∧ last_logged w'
         = Some (error_operation_failed "operation-1" (Some "E1")))
  ∧ (∃ value w',
       SharpOperations.execute_operation
         (Script.client (Script.submitted "operation-1")
            (replicate 10 Script.no_result))
         Script.box "terminal" RefreshStateOperation.__init__ start
       = (Ok value, w')
       ∧ value = false
       ∧ poll_attempts w' = 10%nat
       ∧ last_logged w'
         = Some (info_checks_completed_without_success "operation-1")).
Proof.
  assert (get_status_list RefreshStateOperation.__init__ = Ok []) as Hlist
    by reflexivity.
  split; [exact Hlist|]. split.
  - destruct (execute_operation_returns_boolean
                (Script.client (Script.submitted "operation-1")
                   [Script.outcome "error" (Some "E1")])
                Script.box "terminal" RefreshStateOperation.__init__ [] start
                Hlist)
      as (value & w' & Hrun & _ & _ & _ & Herror & _).
    exists value, w'. split; [exact Hrun|].
    apply (Herror "operation-1" 0%nat
             {| Reply.status := Some "error"; Reply.errorCode := Some "E1";
                Reply.epc := None; Reply.edt := None |});
      [reflexivity | lia | intros j Hj; lia | reflexivity | reflexivity].
  - destruct (execute_operation_returns_boolean
                (Script.client (Script.submitted "operation-1")
                   (replicate 10 Script.no_result))
                Script.box "terminal" RefreshStateOperation.__init__ [] start
                Hlist)
      as (value & w' & Hrun & _ & _ & _ & _ & Htimeout).
    exists value, w'. split; [exact Hrun|].
    apply (Htimeout "operation-1"); [reflexivity|].
    intros j Hj. do 10 (destruct j as [|j]; [reflexivity|]). lia.
Defined.

(** C4 as stated fails: the run that ends with the device error "E1" and the
    run that uses up its ten polls return the same value. *)
Lemma execute_operation_error_equals_timeout :
  let execute polls :=
    SharpOperations.execute_operation
      (Script.client (Script.submitted "operation-1") polls)
      Script.box "terminal" RefreshStateOperation.__init__ start in
  let failed := execute [Script.outcome "error" (Some "E1")] in
  let timed_out := execute (replicate 10 Script.no_result) in
  last_logged failed.2 = Some (error_operation_failed "operation-1" (Some "E1"))
  ∧ last_logged timed_out.2
    = Some (info_checks_completed_without_success "operation-1")
  ∧ poll_attempts timed_out.2 = 10%nat
  ∧ failed.1 = timed_out.1.
Proof. vm_compute. repeat split. Qed.

(* ================================================================== *)
(** * Further properties of the code *)
(* ================================================================== *)

(** ** Enumerations and sensor readings *)

Section states.

(** X1. In each of the five enumerations of two-character codes, looking a
    member's code up gives that member back, a lookup that succeeds returns
    a member with exactly the code asked for (so two members never share a
    code, and the match is case sensitive), and every code has two
    characters. *)
Theorem enumeration_lookup_inverts_value :
  (∀ e, PowerState.of_value (PowerState.value e) = Ok e)
  ∧ (∀ e, OperatingMode.of_value (OperatingMode.value e) = Ok e)
  ∧ (∀ e, HumidificationState.of_value (HumidificationState.value e) = Ok e)
  ∧ (∀ e, LEDBrightnessState.of_value (LEDBrightnessState.value e) = Ok e)
  ∧ (∀ e, ChildLockState.of_value (ChildLockState.value e) = Ok e)
  ∧ (∀ v e, PowerState.of_value v = Ok e → PowerState.value e = v ∧ Py.len v = 2)
  ∧ (∀ v e, OperatingMode.of_value v = Ok e →
            OperatingMode.value e = v ∧ Py.len v = 2)
  ∧ (∀ v e, HumidificationState.of_value v = Ok e →
            HumidificationState.value e = v ∧ Py.len v = 2)
  ∧ (∀ v e, LEDBrightnessState.of_value v = Ok e →
            LEDBrightnessState.value e = v ∧ Py.len v = 2)
  ∧ (∀ v e, ChildLockState.of_value v = Ok e →
            ChildLockState.value e = v ∧ Py.len v = 2).
Proof.
  split; [by intros e; apply PowerState_of_value|].
  split; [by intros e; apply OperatingMode_of_value|].
  split; [by intros e; apply HumidificationState_of_value|].
  split; [by intros e; apply LEDBrightnessState_of_value|].
  split; [by intros e; apply ChildLockState_of_value|].
  split; [intros v e <-%PowerState_of_value; destruct e; split; reflexivity|].
  split; [intros v e <-%OperatingMode_of_value; destruct e; split; reflexivity|].
  split; [intros v e <-%HumidificationState_of_value; destruct e; split; reflexivity|].
  split; [intros v e <-%LEDBrightnessState_of_value; destruct e; split; reflexivity|].
  intros v e <-%ChildLockState_of_value; destruct e; split; reflexivity.
Qed.

(** A lookup in lower case does not find the member ["FF"]. *)
Lemma enumeration_lookup_inverts_value_witness :
  PowerState.of_value "FF" = Ok PowerState.ON
  ∧ (∀ e, PowerState.of_value "ff" ≠ Ok e).
Proof.
  destruct enumeration_lookup_inverts_value as (Hto & _ & _ & _ & _ & Hfrom & _).
  split.
  - exact (Hto PowerState.ON).
  - intros e He. destruct (Hfrom "ff" e He) as [Hvalue _]. by destruct e.
Defined.

(** X2. [WaterContainerState.parse] never fails: the reading 1 is FULL, the
    reading 2 is EMPTY, and every other integer, negative ones included, is
    UNKNOWN. *)
Theorem WaterContainerState_parse_cases (v : Z) :
  (WaterContainerState.parse v = WaterContainerState.FULL ↔ v = 1)
  ∧ (WaterContainerState.parse v = WaterContainerState.EMPTY ↔ v = 2)
  ∧ (WaterContainerState.parse v = WaterContainerState.UNKNOWN ↔ v ≠ 1 ∧ v ≠ 2).
Proof.
  unfold WaterContainerState.parse.
  destruct (Z.eqb_spec v 0), (Z.eqb_spec v 1), (Z.eqb_spec v 2);
    repeat split; intros; try done; try lia.
Qed.

(** The readings 1, 2 and 7. *)
Lemma WaterContainerState_parse_cases_witness :
  WaterContainerState.parse 1 = WaterContainerState.FULL
  ∧ WaterContainerState.parse 2 = WaterContainerState.EMPTY
  ∧ WaterContainerState.parse 7 = WaterContainerState.UNKNOWN.
Proof.
  split; [|split].
  - by apply (WaterContainerState_parse_cases 1).
  - by apply (WaterContainerState_parse_cases 2).
  - by apply (WaterContainerState_parse_cases 7).
Defined.

(** X3. [QualityLevel.parse] is monotone: a larger reading never gives a
    lower level (levels compared by their values 0 to 4). *)
Theorem QualityLevel_parse_monotone (v w : Z) :
  v ≤ w →
  QualityLevel.value (QualityLevel.parse v) ≤ QualityLevel.value (QualityLevel.parse w).
Proof.
  intros Hvw. unfold QualityLevel.parse.
  destruct (Z.gtb_spec v 75), (Z.leb_spec 56 v), (Z.leb_spec v 75),
    (Z.leb_spec 36 v), (Z.ltb_spec v 56), (Z.leb_spec 16 v), (Z.ltb_spec v 36);
    cbn [andb]; try lia;
    destruct (Z.gtb_spec w 75), (Z.leb_spec 56 w), (Z.leb_spec w 75),
      (Z.leb_spec 36 w), (Z.ltb_spec w 56), (Z.leb_spec 16 w), (Z.ltb_spec w 36);
    cbn [andb QualityLevel.value]; lia.
Qed.

(** The readings 35 and 36, either side of a boundary. *)
Lemma QualityLevel_parse_monotone_witness :
  35 ≤ 36
  ∧ QualityLevel.value (QualityLevel.parse 35)
    ≤ QualityLevel.value (QualityLevel.parse 36).
Proof.
  assert (35 ≤ 36) as Hle by discriminate.
  split; [exact Hle|]. exact (QualityLevel_parse_monotone 35 36 Hle).
Defined.

End states.

(** ** Commands *)

Section more_commands.

(** X4. The five status commands of [device_control.py] never fail to build:
    for every state, the status list of the command is the single binary
    payload ["F3"] whose blob is the command's own header followed by a
    field area that holds the state's code at the command's position
    (0, 22, 44, 28 and 18) and ['0'] elsewhere. *)
Theorem status_commands_always_build :
  (∀ mode,
     get_status_list (ChangeModeCommand.__init__ mode)
     = Ok [valueBinary "F3"
             ("01000000" +:+ Py.join (field_area 0 (OperatingMode.value mode)))])
  ∧ (∀ state,
       get_status_list (HumidificationCommand.__init__ state)
       = Ok [valueBinary "F3"
               ("00080000"
                +:+ Py.join (field_area 22 (HumidificationState.value state)))])
  ∧ (∀ state,
       get_status_list (LEDBrightnessCommand.__init__ state)
       = Ok [valueBinary "F3"
               ("00004000"
                +:+ Py.join (field_area 44 (LEDBrightnessState.value state)))])
  ∧ (∀ state,
       get_status_list (ChildLockCommand.__init__ state)
       = Ok [valueBinary "F3"
               ("00400000"
                +:+ Py.join (field_area 28 (ChildLockState.value state)))])
  ∧ (∀ state,
       get_status_list (_PowerStateCommand.__init__ state)
       = Ok [valueBinary "F3"
               ("00020000" +:+ Py.join (field_area 18 (PowerState.value state)))]).
Proof. repeat split; intros []; reflexivity. Qed.

(** The part of a string after a prefix of known length. *)
Lemma slice_from_app (prefix rest : string) :
  Py.slice_from (prefix +:+ rest) (Py.len prefix) = rest.
Proof.
  apply chars_inj. unfold Py.slice_from.
  pose proof (len_nonneg prefix). pose proof (len_nonneg rest).
  rewrite chars_slice by (rewrite ?len_app; lia).
  rewrite chars_app, len_app, drop_app_length' by (rewrite len_chars; lia).
  apply take_ge. rewrite !len_chars. lia.
Qed.

(** X5. [F3Property.from_hex] never looks at the header: two blobs with the
    same field area and any two headers of 8 characters decode alike
    (stripping is assumed to leave both blobs as they are). *)
Theorem F3Property_from_hex_ignores_header (header1 header2 area : string) :
  Py.len header1 = 8 → Py.len header2 = 8 →
  Py.strip (header1 +:+ area) = header1 +:+ area →
  Py.strip (header2 +:+ area) = header2 +:+ area →
  F3Property.from_hex (header1 +:+ area) = F3Property.from_hex (header2 +:+ area).
Proof.
  intros Hlen1 Hlen2 Hstrip1 Hstrip2. unfold F3Property.from_hex.
  assert (Py.slice_from (header1 +:+ area) 8 = area) as Harea1
    by (rewrite <- Hlen1; apply slice_from_app).
  assert (Py.slice_from (header2 +:+ area) 8 = area) as Harea2
    by (rewrite <- Hlen2; apply slice_from_app).
  by rewrite Hstrip1, Hstrip2, Harea1, Harea2, !len_app, Hlen1, Hlen2.
Qed.

(** One field area, with the power field ON, under the header of the power
    command and under the header of the humidification command. *)
Lemma F3Property_from_hex_ignores_header_witness :
  let area := "000000000000000000FF00000000000000000000000000" in
  Py.len "00020000" = 8 ∧ Py.len "00080000" = 8
  ∧ F3Property.from_hex ("00020000" +:+ area)
    = F3Property.from_hex ("00080000" +:+ area).
Proof.
  intros area.
  assert (Py.len "00020000" = 8) as H1 by reflexivity.
  assert (Py.len "00080000" = 8) as H2 by reflexivity.
  split; [exact H1|]. split; [exact H2|].
  apply (F3Property_from_hex_ignores_header "00020000" "00080000" area H1 H2);
    reflexivity.
Defined.

(** A comprehension raises what its first failing element raises. *)
Lemma comprehension_first_error {A B} (f : A → result B) (before after : list A)
    (bad : A) (e : exn) :
  Forall (λ x, ∃ y, f x = Ok y) before → f bad = Raise e →
  comprehension f (before ++ bad :: after) = Raise e.
Proof.
  intros Hbefore Hbad. induction Hbefore as [|x before [y Hx] _ IH]; simpl.
  - by rewrite Hbad.
  - by rewrite Hx, IH.
Qed.

(** X6. When a command of an [OperationList] cannot build its payload, and
    the commands before it can, the status list raises that command's
    exception, whatever follows it; [execute_commands] then raises the same
    exception and posts no request. *)
Theorem OperationList_first_error (before after : list AnyCommand)
    (bad : AnyCommand) (e : exn) :
  Forall (λ command, ∃ payload, any_status_payload command = Ok payload) before →
  any_status_payload bad = Raise e →
  ∃ operation,
    OperationList.__init__ (before ++ bad :: after) = Ok operation
    ∧ get_status_list operation = Raise e
    ∧ ∀ client box_info terminal_app_id w,
        SharpOperations.execute_commands client box_info terminal_app_id
          (before ++ bad :: after) w
        = (Raise e, w).
Proof.
  intros Hbefore Hbad. exists (OperationList.mk (before ++ bad :: after)).
  assert (get_status_list (OperationList.mk (before ++ bad :: after)) = Raise e)
    as Hlist by (by apply comprehension_first_error).
  assert (OperationList.__init__ (before ++ bad :: after)
          = Ok (OperationList.mk (before ++ bad :: after))) as Hinit
    by (by destruct before).
  split; [done|]. split; [done|]. intros client box_info terminal_app_id w.
  unfold SharpOperations.execute_commands, SharpOperations.execute_operation.
  by rewrite Hinit, Hlist.
Qed.

(** A command with a header of 4 characters between two good commands. *)
Lemma OperationList_first_error_witness :
  let before := [any (_PowerCommand.__init__ PowerState.ON)] in
  let bad := any (BinaryFieldCommand.mk "0100" 0 "14") in
  let after := [any (ChildLockCommand.__init__ ChildLockState.ON)] in
  ∃ operation,
    OperationList.__init__ (before ++ bad :: after) = Ok operation
    ∧ get_status_list operation = Raise (ValueError (HeaderLength 4)).
Proof.
  intros before bad after.
  assert (Forall (λ command, ∃ payload, any_status_payload command = Ok payload)
            before) as Hbefore
    by (repeat constructor; eexists; reflexivity).
  assert (any_status_payload bad = Raise (ValueError (HeaderLength 4))) as Hbad
    by reflexivity.
  destruct (OperationList_first_error before after bad _ Hbefore Hbad)
    as (operation & Hinit & Hlist & _).
  exists operation. split; [exact Hinit | exact Hlist].
Defined.

End more_commands.

(** ** The F1 and F2 decoders *)

Section byte_decoders.
Implicit Types (data : list Z) (hex_string : string).

Lemma hexdigit_range c d : Py.hexdigit c = Some d → 0 ≤ d < 16.
Proof.
  unfold Py.hexdigit.
  repeat match goal with
         | |- context [?a <=? ?b] => destruct (Z.leb_spec a b)
         end; cbn [andb]; intros [= <-]; lia.
Qed.

(** Every byte that [bytes.fromhex] returns lies in [0, 256). *)
Lemma fromhex_bytes s :
  (∀ data, Py.fromhex s = Ok data → Forall (λ b, 0 ≤ b < 256) data)
  ∧ (∀ c data, Py.fromhex (String c s) = Ok data → Forall (λ b, 0 ≤ b < 256) data).
Proof.
  induction s as [|d s [IHs IHcs]].
  - split.
    + intros data [= <-]. constructor.
    + intros c data. simpl. destruct (Py.is_ascii_space c).
      * intros [= <-]. constructor.
      * by destruct (Py.hexdigit c).
  - split; [apply IHcs|]. intros c data. cbn [Py.fromhex].
    destruct (Py.is_ascii_space c); [apply IHcs|].
    destruct (Py.hexdigit c) as [top|] eqn:Htop; [|done].
    destruct (Py.hexdigit d) as [bot|] eqn:Hbot; [|done].
    destruct (Py.fromhex s) as [rest|] eqn:Hrest; [|done].
    intros [= <-]. apply hexdigit_range in Htop, Hbot.
    constructor; [lia | by apply IHs].
Qed.

(** A slice of one byte is the byte at that index, or empty past the end. *)
Lemma bytes_slice_one data (n : nat) :
  Py.bytes_slice data n (S n) = option_list (data !! n).
Proof.
  unfold Py.bytes_slice. replace (S n - n)%nat with 1%nat by lia.
  destruct (data !! n) as [b|] eqn:Hn.
  - by rewrite (drop_S _ _ _ Hn).
  - by rewrite drop_ge by (by apply lookup_ge_None).
Qed.

Lemma from_bytes_big_one data (n : nat) :
  Py.from_bytes_big (Py.bytes_slice data n (S n)) = default 0 (data !! n).
Proof.
  rewrite bytes_slice_one. unfold Py.from_bytes_big.
  destruct (data !! n); simpl; lia.
Qed.

(** X7. Whenever the stripped input is a valid hexadecimal string,
    [F1Property.from_hex] succeeds, and its three readings are bounded:
    temperature and humidity are single bytes, below 256, and the PM2.5
    level is below 65536. The temperature is byte 3, the humidity byte 4,
    and the PM2.5 level is little-endian in bytes 28 and 29. *)
Theorem F1Property_from_hex_reads_bytes hex_string data :
  Py.fromhex (Py.strip hex_string) = Ok data →
  ∃ snapshot,
    F1Property.from_hex hex_string = Ok snapshot
    ∧ 0 ≤ F1Property.temperature snapshot < 256
    ∧ 0 ≤ F1Property.humidity snapshot < 256
    ∧ 0 ≤ F1Property.pm25_level snapshot < 65536
    ∧ (∀ b, data !! 3%nat = Some b → F1Property.temperature snapshot = b)
    ∧ (∀ b, data !! 4%nat = Some b → F1Property.humidity snapshot = b)
    ∧ (∀ low high, data !! 28%nat = Some low → data !! 29%nat = Some high →
         F1Property.pm25_level snapshot = low + 256 * high).
Proof.
  intros Hdata. unfold F1Property.from_hex. rewrite Hdata.
  eexists. split; [reflexivity|]. cbn [F1Property.temperature
    F1Property.humidity F1Property.pm25_level].
  pose proof (proj1 (fromhex_bytes _) _ Hdata) as Hbytes.
  rewrite !from_bytes_big_one.
  assert (∀ n : nat, 0 ≤ default 0 (data !! n) < 256) as Hbyte.
  { intros n. destruct (data !! n) as [b|] eqn:Hn; simpl; [|lia].
    by apply (Forall_lookup_1 _ _ _ _ Hbytes Hn). }
  split; [apply Hbyte|]. split; [apply Hbyte|].
  assert (Py.from_bytes_little (Py.bytes_slice data 28 30)
          = default 0 (data !! 28%nat)
            + 256 * match data !! 28%nat with
                    | Some _ => default 0 (data !! 29%nat)
                    | None => 0
                    end)
    as Hpm.
  { unfold Py.bytes_slice. replace (30 - 28)%nat with 2%nat by lia.
    destruct (data !! 28%nat) as [low|] eqn:H28.
    - rewrite (drop_S _ _ _ H28). destruct (data !! 29%nat) as [high|] eqn:H29.
      + rewrite (drop_S _ _ _ H29). unfold Py.from_bytes_little. simpl. lia.
      + rewrite (drop_ge _ 29) by (by apply lookup_ge_None).
        unfold Py.from_bytes_little. simpl. lia.
    - rewrite drop_ge by (by apply lookup_ge_None).
      unfold Py.from_bytes_little. simpl. lia. }
  rewrite Hpm. split.
  { pose proof (Hbyte 28%nat). pose proof (Hbyte 29%nat).
    destruct (data !! 28%nat); simpl in *; lia. }
  split; [by intros b ->|]. split; [by intros b ->|].
  by intros low high -> ->.
Qed.

(** A blob of 30 bytes: 0x17 = 23 degrees, 0x2D = 45 percent, and the bytes
    0x2C 0x01 at 28 and 29, that is 300. *)
Lemma F1Property_from_hex_reads_bytes_witness :
  F1Property.from_hex
    ("000000172D0000000000000000000000000000000000000000000000" +:+ "2C01")
  = Ok (F1Property.mk 23 45 300).
Proof.
  set (hex_string := _ +:+ _).
  destruct (Py.fromhex (Py.strip hex_string)) as [data|] eqn:Hdata;
    [|discriminate Hdata].
  destruct (F1Property_from_hex_reads_bytes hex_string data Hdata)
    as (snapshot & -> & _ & _ & _ & Htemperature & Hhumidity & Hpm).
  injection Hdata as <-.
  destruct snapshot as [temperature humidity pm25_level].
  cbn [F1Property.temperature F1Property.humidity F1Property.pm25_level] in *.
  by rewrite (Htemperature 23), (Hhumidity 45), (Hpm 44 1).
Defined.

(** X8. Whenever the stripped input is a valid hexadecimal string,
    [F2Property.from_hex] succeeds; the odor level is the bucket of byte 14,
    the dust level of byte 15, the air quality of byte 17, and the water
    container state is parsed from byte 18. *)
Theorem F2Property_from_hex_reads_bytes hex_string data :
  Py.fromhex (Py.strip hex_string) = Ok data →
  ∃ snapshot,
    F2Property.from_hex hex_string = Ok snapshot
    ∧ (∀ b, data !! 14%nat = Some b →
         F2Property.odor_level snapshot = QualityLevel.parse b)
    ∧ (∀ b, data !! 15%nat = Some b →
         F2Property.dust_level snapshot = QualityLevel.parse b)
    ∧ (∀ b, data !! 17%nat = Some b →
         F2Property.air_quality snapshot = QualityLevel.parse b)
    ∧ (∀ b, data !! 18%nat = Some b →
         F2Property.water_container snapshot = WaterContainerState.parse b).
Proof.
  intros Hdata. unfold F2Property.from_hex. rewrite Hdata.
  eexists. split; [reflexivity|].
  cbn [F2Property.odor_level F2Property.dust_level F2Property.air_quality
       F2Property.water_container].
  rewrite !from_bytes_big_one.
  repeat split; by intros b ->.
Qed.

(** A blob of 19 bytes with odor 0x10 = 16, dust 0x26 = 38, air quality
    0x4C = 76 and a water container byte of 2. *)
Lemma F2Property_from_hex_reads_bytes_witness :
  F2Property.from_hex "00000000000000000000000000001026004C02"
  = Ok (F2Property.mk QualityLevel.VERY_HIGH QualityLevel.MEDIUM
          QualityLevel.LOW WaterContainerState.EMPTY).
Proof.
  set (hex_string := "00000000000000000000000000001026004C02").
  destruct (Py.fromhex (Py.strip hex_string)) as [data|] eqn:Hdata;
    [|discriminate Hdata].
  destruct (F2Property_from_hex_reads_bytes hex_string data Hdata)
    as (snapshot & -> & Hodor & Hdust & Hair & Hwater).
  injection Hdata as <-.
  destruct snapshot as [air_quality dust_level odor_level water_container].
  cbn [F2Property.odor_level F2Property.dust_level F2Property.air_quality
       F2Property.water_container] in *.
  by rewrite (Hodor 16), (Hdust 38), (Hair 76), (Hwater 2).
Defined.

End byte_decoders.

(** ** The property-query decoder *)

Section from_api_response.
Implicit Types (status : Json.status) (status_list : list Json.status)
  (vars : DeviceProperties.locals) (response_data : Json.response_data).

Local Ltac case_codes status :=
  destruct (String.eqb_spec (status_code_of status) "f1") as [Hf1|Hf1];
    [|destruct (String.eqb_spec (status_code_of status) "f2") as [Hf2|Hf2];
      [|destruct (String.eqb_spec (status_code_of status) "f3") as [Hf3|Hf3]]].

(** The body of the loop, by the status code of the entry. *)
Lemma loop_body_cases vars status :
  DeviceProperties.loop_body vars status =
    let '(f1, f2, f3) := vars in
    if String.eqb (status_code_of status) "f1" then
      v ← F1Property.from_hex (blob_of status); Ok (Some v, f2, f3)
    else if String.eqb (status_code_of status) "f2" then
      v ← F2Property.from_hex (blob_of status); Ok (f1, Some v, f3)
    else if String.eqb (status_code_of status) "f3" then
      v ← F3Property.from_hex (blob_of status); Ok (f1, f2, Some v)
    else Ok vars.
Proof. by destruct vars as [[f1 f2] f3]. Qed.

Lemma from_api_response_loop response_data :
  DeviceProperties.from_api_response response_data =
    vars ← DeviceProperties.loop (None, None, None) (status_entries response_data);
    Ok (DeviceProperties.mk
          (Json.get (Json.echonetNode
                       (Json.get (Json.deviceProperty response_data)
                                 Json.no_device_property)) "")
          (Json.get (Json.label
                       (Json.get (Json.deviceProperty response_data)
                                 Json.no_device_property)) "")
          vars.1.1 vars.1.2 vars.2).
Proof.
  unfold DeviceProperties.from_api_response, status_entries.
  by destruct (DeviceProperties.loop _ _) as [[[f1 f2] f3]|].
Qed.

Lemma loop_skips_unrecognised status_list : ∀ vars,
  DeviceProperties.loop vars (List.filter recognised status_list)
  = DeviceProperties.loop vars status_list.
Proof.
  induction status_list as [|status rest IH]; intros vars; [done|].
  cbn [List.filter DeviceProperties.loop]. unfold recognised.
  rewrite (loop_body_cases vars status). destruct vars as [[f1 f2] f3].
  case_codes status; cbn [orb DeviceProperties.loop].
  - rewrite loop_body_cases, (proj2 (String.eqb_eq _ _) Hf1).
    destruct (F1Property.from_hex _); simpl; [apply IH | done].
  - rewrite loop_body_cases, (proj2 (String.eqb_neq _ _) Hf1),
      (proj2 (String.eqb_eq _ _) Hf2).
    destruct (F2Property.from_hex _); simpl; [apply IH | done].
  - rewrite loop_body_cases, (proj2 (String.eqb_neq _ _) Hf1),
      (proj2 (String.eqb_neq _ _) Hf2), (proj2 (String.eqb_eq _ _) Hf3).
    destruct (F3Property.from_hex _); simpl; [apply IH | done].
  - simpl. apply IH.
Qed.

(** X9. Entries with a status code other than f1, f2 and f3 are ignored:
    decoding a response gives the same result, value or exception, as
    decoding it with those entries removed. *)
Theorem from_api_response_ignores_unknown_codes echonetNode label status_list :
  DeviceProperties.from_api_response
    (response echonetNode label (List.filter recognised status_list))
  = DeviceProperties.from_api_response (response echonetNode label status_list).
Proof.
  rewrite !from_api_response_loop. unfold status_entries, response.
  cbn [Json.get Json.deviceProperty Json.status_list Json.echonetNode Json.label].
  by rewrite loop_skips_unrecognised.
Qed.


(** How one more entry at the front changes the blob that counts. *)
Lemma last_blob_cons code status rest :
  last_blob code (status :: rest) =
    match last_blob code rest with
    | Some blob => Some blob
    | None => if String.eqb (status_code_of status) code
              then Some (blob_of status) else None
    end.
Proof. done. Qed.

(** What the loop leaves in its three variables when it ends normally. *)
Lemma loop_decodes_last_entries status_list : ∀ vars vars',
  DeviceProperties.loop vars status_list = Ok vars' →
  vars'.1.1 = match last_blob "f1" status_list with
              | Some blob => returned (F1Property.from_hex blob)
              | None => vars.1.1
              end
  ∧ vars'.1.2 = match last_blob "f2" status_list with
                | Some blob => returned (F2Property.from_hex blob)
                | None => vars.1.2
                end
  ∧ vars'.2 = match last_blob "f3" status_list with
              | Some blob => returned (F3Property.from_hex blob)
              | None => vars.2
              end.
Proof.
  induction status_list as [|status rest IH]; intros vars vars'.
  - by intros [= <-].
  - cbn [DeviceProperties.loop]. rewrite loop_body_cases, !last_blob_cons.
    destruct vars as [[f1 f2] f3].
    case_codes status; rewrite ?Hf1, ?Hf2, ?Hf3; cbn [String.eqb Ascii.eqb Bool.eqb].
    + destruct (F1Property.from_hex (blob_of status)) as [v|] eqn:Hv; [|done].
      intros (H1 & H2 & H3)%IH. rewrite H1, H2, H3. cbn.
      clear IH. by destruct (last_blob "f1" rest), (last_blob "f2" rest),
        (last_blob "f3" rest); rewrite ?Hv.
    + destruct (F2Property.from_hex (blob_of status)) as [v|] eqn:Hv; [|done].
      intros (H1 & H2 & H3)%IH. rewrite H1, H2, H3. cbn.
      clear IH. by destruct (last_blob "f1" rest), (last_blob "f2" rest),
        (last_blob "f3" rest); rewrite ?Hv.
    + destruct (F3Property.from_hex (blob_of status)) as [v|] eqn:Hv; [|done].
      intros (H1 & H2 & H3)%IH. rewrite H1, H2, H3. cbn.
      clear IH. by destruct (last_blob "f1" rest), (last_blob "f2" rest),
        (last_blob "f3" rest); rewrite ?Hv.
    + intros (H1 & H2 & H3)%IH. rewrite H1, H2, H3. clear IH.
      by destruct (last_blob "f1" rest), (last_blob "f2" rest),
        (last_blob "f3" rest).
Qed.

(** The loop ends normally exactly when every entry can be decoded. *)
Lemma loop_Ok_iff status_list : ∀ vars,
  (∃ vars', DeviceProperties.loop vars status_list = Ok vars')
  ↔ Forall decodes status_list.
Proof.
  induction status_list as [|status rest IH]; intros vars.
  - split; [constructor | by eexists].
  - cbn [DeviceProperties.loop]. rewrite loop_body_cases, Forall_cons.
    unfold decodes at 1. destruct vars as [[f1 f2] f3].
    case_codes status; rewrite ?Hf1, ?Hf2, ?Hf3.
    + destruct (F1Property.from_hex (blob_of status)) as [v|]; simpl.
      * rewrite IH. split; [|tauto]. intros ?. split; [|done].
        repeat split; [by eexists | done | done].
      * split; [by intros [? ?]|]. intros [(H1 & _) _].
        by destruct (H1 eq_refl).
    + destruct (F2Property.from_hex (blob_of status)) as [v|]; simpl.
      * rewrite IH. split; [|tauto]. intros ?. split; [|done].
        repeat split; [done | by eexists | done].
      * split; [by intros [? ?]|]. intros [(_ & H2 & _) _].
        by destruct (H2 eq_refl).
    + destruct (F3Property.from_hex (blob_of status)) as [v|]; simpl.
      * rewrite IH. split; [|tauto]. intros ?. split; [|done].
        repeat split; [done | done | by eexists].
      * split; [by intros [? ?]|]. intros [(_ & _ & H3) _].
        by destruct (H3 eq_refl).
    + simpl. rewrite IH. split; [|tauto]. intros ?. split; [|done].
      repeat split; done.
Qed.

(** X10. [from_api_response] returns a snapshot exactly when every entry
    with a recognised status code carries a blob that its decoder accepts:
    one bad entry makes the whole decode raise, even when a later entry with
    the same code is good. A missing [deviceProperty] or [status] key counts
    as an empty list. *)
Theorem from_api_response_succeeds_iff response_data :
  (∃ properties, DeviceProperties.from_api_response response_data = Ok properties)
  ↔ Forall decodes (status_entries response_data).
Proof.
  rewrite from_api_response_loop, <- (loop_Ok_iff _ (None, None, None)).
  destruct (DeviceProperties.loop _ _) as [vars|]; simpl.
  - split; intros _; by eexists.
  - split; by intros [? ?].
Qed.

(** X11. In the snapshot that [from_api_response] returns, each of the three
    sub-properties is the decoded blob of the last entry with its status
    code, and is absent when no entry has that code; node and label are
    copied from the response, the empty string standing for a missing
    key. *)
Theorem from_api_response_decodes_last_entries response_data properties :
  DeviceProperties.from_api_response response_data = Ok properties →
  let device_property :=
    Json.get (Json.deviceProperty response_data) Json.no_device_property in
  let status_list := status_entries response_data in
  DeviceProperties.echonet_node properties
  = Json.get (Json.echonetNode device_property) ""
  ∧ DeviceProperties.label properties = Json.get (Json.label device_property) ""
  ∧ DeviceProperties.f1_property properties
    = last_blob "f1" status_list ≫= (λ blob, returned (F1Property.from_hex blob))
  ∧ DeviceProperties.f2_property properties
    = last_blob "f2" status_list ≫= (λ blob, returned (F2Property.from_hex blob))
  ∧ DeviceProperties.f3_property properties
    = last_blob "f3" status_list ≫= (λ blob, returned (F3Property.from_hex blob)).
Proof.
  rewrite from_api_response_loop.
  destruct (DeviceProperties.loop _ _) as [vars|] eqn:Hloop; [|done].
  intros [= <-]. apply loop_decodes_last_entries in Hloop as (H1 & H2 & H3).
  cbn. rewrite H1, H2, H3.
  repeat split; by destruct (last_blob _ _).
Qed.


(** X12. [from_api_response] reads of an entry only its status code in
    lower case and its blob: two status lists whose entries agree on these
    decode alike, so that ["F3"] and ["f3"] name the same property. *)
Theorem from_api_response_case_insensitive echonetNode label
    (status_list1 status_list2 : list Json.status) :
  Forall2 (λ status1 status2,
             status_code_of status1 = status_code_of status2
             ∧ blob_of status1 = blob_of status2) status_list1 status_list2 →
  DeviceProperties.from_api_response (response echonetNode label status_list1)
  = DeviceProperties.from_api_response (response echonetNode label status_list2).
Proof.
  intros Hagree. rewrite !from_api_response_loop. unfold status_entries, response.
  cbn [Json.get Json.deviceProperty Json.status_list Json.echonetNode Json.label].
  assert (∀ vars, DeviceProperties.loop vars status_list1
                  = DeviceProperties.loop vars status_list2) as ->; [|done].
  induction Hagree as [|status1 status2 rest1 rest2 [Hcode Hblob] _ IH];
    intros vars; [done|].
  cbn [DeviceProperties.loop]. rewrite !loop_body_cases, Hcode, Hblob.
  match goal with
  | |- ?body ≫= _ = _ => destruct body as [vars'|]; simpl; [apply IH | done]
  end.
Qed.

End from_api_response.

(** A status list with an entry of an unknown code and two F3 entries. *)
Lemma from_api_response_succeeds_iff_witness :
  ∃ properties,
    DeviceProperties.from_api_response
      (response "node" "label"
         [entry "F3" "00020000000000000000000000FF00000000000000000000000000";
          entry "E0" "not decoded";
          entry "f3" "010000001000000000000000000000000000000000000000000000"])
    = Ok properties.
Proof.
  apply from_api_response_succeeds_iff.
  repeat constructor; try discriminate; intros _; eexists; reflexivity.
Defined.

(** The later of two F3 entries is the one that is kept. *)
Lemma from_api_response_decodes_last_entries_witness :
  let response_data :=
    response "node" "label"
      [entry "F3" "00020000000000000000000000FF00000000000000000000000000";
       entry "E0" "not decoded";
       entry "f3" "010000001000000000000000000000000000000000000000000000"] in
  ∃ properties,
    DeviceProperties.from_api_response response_data = Ok properties
    ∧ DeviceProperties.f1_property properties = None
    ∧ DeviceProperties.f3_property properties
      = Some (F3Property.mk OperatingMode.AUTO HumidificationState.OFF
                PowerState.OFF ChildLockState.OFF LEDBrightnessState.OFF).
Proof.
  intros response_data.
  destruct (DeviceProperties.from_api_response response_data)
    as [properties|] eqn:Hdecode; [|discriminate Hdecode].
  exists properties. split; [reflexivity|].
  destruct (from_api_response_decodes_last_entries response_data properties Hdecode)
    as (_ & _ & Hf1 & _ & Hf3).
  split; [exact Hf1 | exact Hf3].
Defined.

(** The same blob under ["F3"] and under ["f3"]. *)
Lemma from_api_response_case_insensitive_witness :
  let blob := "00020000000000000000000000FF00000000000000000000000000" in
  DeviceProperties.from_api_response (response "node" "label" [entry "F3" blob])
  = DeviceProperties.from_api_response (response "node" "label" [entry "f3" blob]).
Proof.
  intros blob. apply from_api_response_case_insensitive.
  repeat constructor.
Defined.

(** ** More on the submit-and-poll loop *)

Section more_execution.
Context {Op : Type} `{!Operation Op}.
Implicit Types (client : SharpClient) (box_info : BoxInfo) (w : world)
  (operation : Op) (range : list Z) (k n : nat).


(** The requests and the waits of the loop, however it leaves: as many
    seconds slept as polls posted, at most one poll per element of the
    range, all of them used when the range is used up. *)
Lemma status_checks_shape client box_info operation_id range : ∀ w,
  ∃ n,
    (n ≤ length range)%nat
    ∧ posted (SharpOperations.status_checks client box_info operation_id range w).2
      = posted w ++ replicate n (poll_request box_info operation_id)
    ∧ slept (SharpOperations.status_checks client box_info operation_id range w).2
      = slept w + Z.of_nat n
    ∧ ((SharpOperations.status_checks client box_info operation_id range w).1
       = Completed → n = length range)
    ∧ (∀ value,
         (SharpOperations.status_checks client box_info operation_id range w).1
         = Return value → (1 ≤ n)%nat).
Proof.
  induction range as [|i range IH]; intros w.
  - exists 0%nat. cbn. rewrite app_nil_r. repeat split; try lia; done.
  - cbn [SharpOperations.status_checks post sleep posted slept].
    fold (poll_request box_info operation_id).
    set (w1 := {| posted := posted w ++ [poll_request box_info operation_id];
                  slept := slept w + 1; logged := logged w |}).
    assert (∀ w2, posted w2 = posted w1 → slept w2 = slept w1 →
              ∃ n, (n ≤ S (length range))%nat
                ∧ posted (SharpOperations.status_checks client box_info
                            operation_id range w2).2
                  = posted w ++ replicate n (poll_request box_info operation_id)
                ∧ slept (SharpOperations.status_checks client box_info
                           operation_id range w2).2
                  = slept w + Z.of_nat n
                ∧ ((SharpOperations.status_checks client box_info
                      operation_id range w2).1 = Completed → n = S (length range))
                ∧ (∀ value, (SharpOperations.status_checks client box_info
                               operation_id range w2).1 = Return value →
                            (1 ≤ n)%nat)) as Hgo_on.
    { intros w2 Hposted Hslept.
      destruct (IH w2) as (n & Hn & Hp & Hs & Hc & Hr). exists (S n).
      rewrite Hp, Hs, Hposted, Hslept. cbn [posted slept w1 replicate].
      rewrite <- app_assoc. repeat split; try lia; try done.
      intros Hexit. by rewrite (Hc Hexit). }
    assert (∀ exit w2, posted w2 = posted w1 → slept w2 = slept w1 →
              exit ≠ Completed →
              ∃ n, (n ≤ S (length range))%nat
                ∧ posted (exit, w2).2
                  = posted w ++ replicate n (poll_request box_info operation_id)
                ∧ slept (exit, w2).2 = slept w + Z.of_nat n
                ∧ ((exit, w2).1 = Completed → n = S (length range))
                ∧ (∀ value, (exit, w2).1 = Return value → (1 ≤ n)%nat)) as Hleave.
    { intros exit w2 Hposted Hslept Hexit. exists 1%nat. cbn [fst snd].
      rewrite Hposted, Hslept. cbn. repeat split; try lia; done. }
    destruct (post_json client _ _) as [json|]; [|by apply Hleave].
    destruct (Reply.resultList json) as [[|result results]|];
      try by apply Hgo_on.
    case_bool_decide; [by apply Hleave|].
    destruct (_ && _); [by apply Hleave | by apply Hgo_on].
Qed.

(** X13. A submission that fails is not retried and is never polled:
    [execute_operation] returns [False] having posted that one request and
    slept not at all, and it logs one record, which tells the two failures
    apart. When the control request raises, the record is the error of the
    [except] clause. When the request is answered, but the response has no
    [controlList], or an empty one, or a first entry whose [id] is missing
    or empty, the record is the error "No operation ID received". *)
Theorem execute_operation_submission_failure client box_info terminal_app_id
    operation status_list w :
  get_status_list operation = Ok status_list →
  let submission :=
    post_json client (length (posted w))
      (control_request box_info terminal_app_id status_list) in
  let fails_logging record :=
    ∃ w',
      SharpOperations.execute_operation client box_info terminal_app_id
        operation w = (Ok false, w')
      ∧ posted w'
        = posted w ++ [control_request box_info terminal_app_id status_list]
      ∧ slept w' = slept w
      ∧ logged w' = logged w ++ [record] in
  (submission = Throws →
   fails_logging (error_during_device_control (box_id box_info)))
  ∧ (∀ json,
       submission = Returns json →
       Reply.controlList json = None
       ∨ Reply.controlList json = Some []
       ∨ (∃ first rest,
            Reply.controlList json = Some (first :: rest)
            ∧ (Reply.id first = None ∨ Reply.id first = Some "")) →
       fails_logging (error_no_operation_id (box_id box_info))).
Proof.
  intros Hlist submission fails_logging. split.
  - intros Hthrows.
    assert (operation_id_of submission = None) as Hid by by rewrite Hthrows.
    eexists. split; [by apply execute_operation_not_submitted|].
    fold submission. by rewrite Hthrows.
  - intros json Hjson Hno_id.
    assert (operation_id_of submission = None) as Hid.
    { rewrite Hjson. unfold operation_id_of.
      destruct Hno_id as [-> | [-> | (first & rest & -> & [-> | ->])]]; done. }
    eexists. split; [by apply execute_operation_not_submitted|].
    fold submission. by rewrite Hjson.
Qed.

(** X14. Whatever the transport answers, an execution posts the control
    request first, with the device identity of the box and the status list
    of the operation, then [n] poll requests and nothing else, with
    [n ≤ 10], all for one operation id; the seconds it has slept by its end
    are [n], as many as the polls it has posted; and it returns [True] only
    after at least one poll. *)
Theorem execute_operation_requests client box_info terminal_app_id operation
    status_list w :
  get_status_list operation = Ok status_list →
  ∃ value w' n operation_id,
    SharpOperations.execute_operation client box_info terminal_app_id operation w
    = (Ok value, w')
    ∧ (n ≤ 10)%nat
    ∧ posted w'
      = posted w ++ control_request box_info terminal_app_id status_list
                    :: replicate n (poll_request box_info operation_id)
    ∧ slept w' = slept w + Z.of_nat n
    ∧ (value = true → (1 ≤ n)%nat).
Proof.
  intros Hlist.
  destruct (operation_id_of
              (post_json client (length (posted w))
                 (control_request box_info terminal_app_id status_list)))
    as [operation_id|] eqn:Hid.
  - rewrite (execute_operation_submitted _ _ _ _ _ _ _ Hlist Hid). cbv zeta.
    match goal with
    | |- context [SharpOperations.status_checks ?c ?b ?o ?r ?w0] =>
        destruct (status_checks_shape c b o r w0) as (n & Hn & Hp & Hs & Hc & Hr);
        destruct (SharpOperations.status_checks c b o r w0) as [exit w']
    end.
    cbn [fst snd log posted slept] in *. rewrite <- app_assoc in Hp.
    destruct exit as [value| |]; eexists _, _, n, operation_id;
      (split; [reflexivity|]); cbn [log posted slept];
      repeat split; try done; try by intros [=].
    intros ->. by apply (Hr true).
  - rewrite (execute_operation_not_submitted _ _ _ _ _ _ Hlist Hid).
    eexists false, _, 0%nat, "". split; [reflexivity|]. cbn.
    repeat split; try done; lia.
Qed.

(** X15. The first poll response that is an error or a clean success
    decides, whatever came before was only waited for: after [k] pending
    responses, with [k < 10], such a response makes [execute_operation]
    return at once, [False] for an error and [True] for a success, having
    posted exactly [k + 1] polls and slept [k + 1] seconds; the last record
    logged carries the error code, or the [epc] and [edt] of the success. *)
Theorem execute_operation_first_terminal_response client box_info
    terminal_app_id operation status_list operation_id w k result :
  get_status_list operation = Ok status_list →
  operation_id_of (post_json client (length (posted w))
                     (control_request box_info terminal_app_id status_list))
  = Some operation_id →
  (k < 10)%nat →
  (∀ j, (j < k)%nat →
        pending (post_json client (length (posted w) + 1 + j)
                   (poll_request box_info operation_id)) = true) →
  first_result (post_json client (length (posted w) + 1 + k)
                  (poll_request box_info operation_id)) = Some result →
  is_error result || is_success result = true →
  ∃ w',
    SharpOperations.execute_operation client box_info terminal_app_id operation w
    = (Ok (negb (is_error result)), w')
    ∧ posted w'
      = posted w ++ control_request box_info terminal_app_id status_list
                    :: replicate (S k) (poll_request box_info operation_id)
    ∧ slept w' = slept w + Z.of_nat (S k)
    ∧ last_logged w'
      = Some (if is_error result
              then error_operation_failed operation_id (Reply.errorCode result)
              else info_operation_completed operation_id
                     (Reply.epc result) (Reply.edt result)).
Proof.
  intros Hlist Hid Hk Hpending Hresult Hterminal.
  rewrite (execute_operation_submitted _ _ _ _ _ _ _ Hlist Hid). cbv zeta.
  set (w0 := log _ _).
  assert (length (posted w0) = (length (posted w) + 1)%nat) as Hw0
    by (cbn; by rewrite length_app).
  destruct (status_checks_pending_prefix client box_info operation_id k
              (seqZ 0 10) w0) as (wk & -> & Hposted & Hslept).
  { rewrite length_seqZ. lia. }
  { intros j Hj. rewrite Hw0. by apply Hpending. }
  assert (length (posted wk) = (length (posted w) + 1 + k)%nat) as Hwk
    by (rewrite Hposted, length_app, length_replicate; lia).
  destruct (lookup_lt_is_Some_2 (seqZ 0 10) k) as [i Hi];
    [rewrite length_seqZ; lia|].
  rewrite (drop_S _ _ _ Hi).
  cbn [SharpOperations.status_checks post sleep posted slept].
  fold (poll_request box_info operation_id). rewrite Hwk.
  unfold first_result in Hresult.
  destruct (post_json client (length (posted w) + 1 + k)
              (poll_request box_info operation_id)) as [json|]; [|done].
  destruct (Reply.resultList json) as [[|result' results]|]; try done.
  injection Hresult as ->. unfold is_error, is_success in *.
  assert (replicate (S k) (poll_request box_info operation_id)
          = replicate k (poll_request box_info operation_id)
            ++ [poll_request box_info operation_id]) as Hsnoc
    by (by rewrite <- replicate_cons_app).
  case_bool_decide as Herror.
  - eexists. split; [reflexivity|]. cbn [log posted slept].
    rewrite Hposted, Hslept, last_logged_log, Hsnoc. cbn.
    rewrite <- !app_assoc. repeat split; try done; lia.
  - cbn [orb] in Hterminal. rewrite Hterminal.
    eexists. split; [reflexivity|]. cbn [log posted slept].
    rewrite Hposted, Hslept, last_logged_log, Hsnoc. cbn.
    rewrite <- !app_assoc. repeat split; try done; lia.
Qed.


(** X16. An exception of the transport during polling ends the execution at
    once: after [k] pending responses, with [k < 10], a poll that raises
    makes [execute_operation] return [False] with exactly [k + 1] polls
    posted; the poll is not repeated and the remaining attempts are not
    used. *)
Theorem execute_operation_poll_exception client box_info terminal_app_id
    operation status_list operation_id w k :
  get_status_list operation = Ok status_list →
  operation_id_of (post_json client (length (posted w))
                     (control_request box_info terminal_app_id status_list))
  = Some operation_id →
  (k < 10)%nat →
  (∀ j, (j < k)%nat →
        pending (post_json client (length (posted w) + 1 + j)
                   (poll_request box_info operation_id)) = true) →
  post_json client (length (posted w) + 1 + k)
    (poll_request box_info operation_id) = Throws →
  ∃ w',
    SharpOperations.execute_operation client box_info terminal_app_id operation w
    = (Ok false, w')
    ∧ posted w'
      = posted w ++ control_request box_info terminal_app_id status_list
                    :: replicate (S k) (poll_request box_info operation_id)
    ∧ slept w' = slept w + Z.of_nat (S k)
    ∧ last_logged w' = Some (error_during_device_control (box_id box_info)).
Proof.
  intros Hlist Hid Hk Hpending Hthrows.
  rewrite (execute_operation_submitted _ _ _ _ _ _ _ Hlist Hid). cbv zeta.
  set (w0 := log _ _).
  assert (length (posted w0) = (length (posted w) + 1)%nat) as Hw0
    by (cbn; by rewrite length_app).
  destruct (status_checks_pending_prefix client box_info operation_id k
              (seqZ 0 10) w0) as (wk & -> & Hposted & Hslept).
  { rewrite length_seqZ. lia. }
  { intros j Hj. rewrite Hw0. by apply Hpending. }
  assert (length (posted wk) = (length (posted w) + 1 + k)%nat) as Hwk
    by (rewrite Hposted, length_app, length_replicate; lia).
  destruct (lookup_lt_is_Some_2 (seqZ 0 10) k) as [i Hi];
    [rewrite length_seqZ; lia|].
  rewrite (drop_S _ _ _ Hi).
  cbn [SharpOperations.status_checks post sleep posted slept].
  fold (poll_request box_info operation_id). rewrite Hwk, Hthrows.
  eexists. split; [reflexivity|]. cbn [log posted slept].
  rewrite Hposted, Hslept, last_logged_log.
  assert (replicate (S k) (poll_request box_info operation_id)
          = replicate k (poll_request box_info operation_id)
            ++ [poll_request box_info operation_id]) as ->
    by (by rewrite <- replicate_cons_app).
  cbn. rewrite <- !app_assoc. repeat split; try done; lia.
Qed.

(** X17. Ten pending responses use the attempts up: when each of the ten
    polls has no result entry, or an entry that is neither an error nor a
    success free of an error code (a "success" that carries an error code,
    an unknown status), [execute_operation] returns [False] after exactly
    10 polls and 10 seconds of sleep, and logs that the checks completed
    without success. *)
Theorem execute_operation_ten_pending client box_info terminal_app_id
    operation status_list operation_id w :
  get_status_list operation = Ok status_list →
  operation_id_of (post_json client (length (posted w))
                     (control_request box_info terminal_app_id status_list))
  = Some operation_id →
  (∀ j, (j < 10)%nat →
        pending (post_json client (length (posted w) + 1 + j)
                   (poll_request box_info operation_id)) = true) →
  ∃ w',
    SharpOperations.execute_operation client box_info terminal_app_id operation w
    = (Ok false, w')
    ∧ posted w'
      = posted w ++ control_request box_info terminal_app_id status_list
                    :: replicate 10 (poll_request box_info operation_id)
    ∧ slept w' = slept w + 10
    ∧ last_logged w'
      = Some (info_checks_completed_without_success operation_id).
Proof.
  intros Hlist Hid Hpending.
  rewrite (execute_operation_submitted _ _ _ _ _ _ _ Hlist Hid). cbv zeta.
  set (w0 := log _ _).
  assert (length (posted w0) = (length (posted w) + 1)%nat) as Hw0
    by (cbn; by rewrite length_app).
  destruct (status_checks_pending_prefix client box_info operation_id 10
              (seqZ 0 10) w0) as (wk & -> & Hposted & Hslept).
  { by rewrite length_seqZ. }
  { intros j Hj. rewrite Hw0. by apply Hpending. }
  cbn [drop seqZ SharpOperations.status_checks].
  eexists. split; [reflexivity|]. cbn [log posted slept].
  rewrite Hposted, Hslept, last_logged_log. subst w0. cbn [log posted slept].
  rewrite <- app_assoc. repeat split; try done; lia.
Qed.

End more_execution.

(** A transport that raises on the control request, and one that answers
    it with an empty operation id. *)
Lemma execute_operation_submission_failure_witness :
  (∃ w',
     SharpOperations.execute_operation (Script.client Throws [Script.no_result])
       Script.box "terminal" RefreshStateOperation.__init__ start
     = (Ok false, w')
     ∧ poll_attempts w' = 0%nat ∧ slept w' = 0
     ∧ logged w' = [error_during_device_control "box-1"])
  ∧ (∃ w',
       SharpOperations.execute_operation
         (Script.client (Script.submitted "") [Script.no_result])
         Script.box "terminal" RefreshStateOperation.__init__ start
       = (Ok false, w')
       ∧ poll_attempts w' = 0%nat ∧ slept w' = 0
       ∧ logged w' = [error_no_operation_id "box-1"]).
Proof.
  split.
  - destruct (execute_operation_submission_failure
                (Script.client Throws [Script.no_result]) Script.box "terminal"
                RefreshStateOperation.__init__ [] start eq_refl)
      as [Hraises _].
    destruct (Hraises eq_refl) as (w' & Hrun & Hposted & Hslept & Hlogged).
    exists w'. split; [exact Hrun|].
    split; [unfold poll_attempts; rewrite Hposted; reflexivity|].
    split; [exact Hslept | exact Hlogged].
  - destruct (execute_operation_submission_failure
                (Script.client (Script.submitted "") [Script.no_result])
                Script.box "terminal" RefreshStateOperation.__init__ [] start
                eq_refl)
      as [_ Hno_id].
    destruct (Hno_id _ eq_refl) as (w' & Hrun & Hposted & Hslept & Hlogged).
    { right. right. eexists _, _. split; [reflexivity|]. right. reflexivity. }
    exists w'. split; [exact Hrun|].
    split; [unfold poll_attempts; rewrite Hposted; reflexivity|].
    split; [exact Hslept | exact Hlogged].
Defined.

(** A power operation polled four times. *)
Lemma execute_operation_requests_witness :
  ∃ value w' n,
    SharpOperations.execute_operation
      (Script.client (Script.submitted "operation-1")
         [Script.no_result; Script.no_result; Script.no_result;
          Script.outcome "success" None])
      Script.box "terminal" (OperationList.mk [any (_PowerCommand.__init__ PowerState.ON)])
      start
    = (Ok value, w')
    ∧ (n ≤ 10)%nat ∧ slept w' = Z.of_nat n.
Proof.
  destruct (execute_operation_requests
              (Script.client (Script.submitted "operation-1")
                 [Script.no_result; Script.no_result; Script.no_result;
                  Script.outcome "success" None])
              Script.box "terminal"
              (OperationList.mk [any (_PowerCommand.__init__ PowerState.ON)])
              [valueSingle "80" "30"] start eq_refl)
    as (value & w' & n & operation_id & Hrun & Hn & _ & Hslept & _).
  exists value, w', n. split; [exact Hrun|]. split; [exact Hn | exact Hslept].
Defined.

(** No result, then a "success" that carries an error code, then
    "unmatch": the third response decides. *)
Lemma execute_operation_first_terminal_response_witness :
  ∃ w',
    SharpOperations.execute_operation
      (Script.client (Script.submitted "operation-1")
         [Script.no_result; Script.outcome "success" (Some "E7");
          Script.outcome "unmatch" None])
      Script.box "terminal" RefreshStateOperation.__init__ start
    = (Ok true, w')
    ∧ poll_attempts w' = 3%nat ∧ slept w' = 3.
Proof.
  set (client := Script.client _ _).
  assert (∀ j, (j < 2)%nat →
               pending (post_json client (length (posted start) + 1 + j)
                          (poll_request Script.box "operation-1")) = true)
    as Hpending
    by (intros [|[|j]] Hj; [reflexivity | reflexivity | lia]).
  destruct (execute_operation_first_terminal_response client Script.box
              "terminal" RefreshStateOperation.__init__ [] "operation-1" start 2
              {| Reply.status := Some "unmatch"; Reply.errorCode := None;
                 Reply.epc := None; Reply.edt := None |}
              eq_refl eq_refl ltac:(lia) Hpending eq_refl eq_refl)
    as (w' & Hrun & Hposted & Hslept & _).
  exists w'. split; [exact Hrun|]. split; [|exact Hslept].
  unfold poll_attempts. rewrite Hposted. reflexivity.
Defined.

(** The transport raises on the second poll. *)
Lemma execute_operation_poll_exception_witness :
  ∃ w',
    SharpOperations.execute_operation
      (Script.client (Script.submitted "operation-1")
         [Script.no_result; Throws; Script.outcome "success" None])
      Script.box "terminal" RefreshStateOperation.__init__ start
    = (Ok false, w')
    ∧ poll_attempts w' = 2%nat.
Proof.
  set (client := Script.client _ _).
  assert (∀ j, (j < 1)%nat →
               pending (post_json client (length (posted start) + 1 + j)
                          (poll_request Script.box "operation-1")) = true)
    as Hpending
    by (intros [|j] Hj; [reflexivity | lia]).
  destruct (execute_operation_poll_exception client Script.box "terminal"
              RefreshStateOperation.__init__ [] "operation-1" start 1
              eq_refl eq_refl ltac:(lia) Hpending eq_refl)
    as (w' & Hrun & Hposted & _).
  exists w'. split; [exact Hrun|].
  unfold poll_attempts. rewrite Hposted. reflexivity.
Defined.

(** Ten responses that report "success" together with an error code. *)
Lemma execute_operation_ten_pending_witness :
  ∃ w',
    SharpOperations.execute_operation
      (Script.client (Script.submitted "operation-1")
         (replicate 10 (Script.outcome "success" (Some "E7"))))
      Script.box "terminal" RefreshStateOperation.__init__ start
    = (Ok false, w')
    ∧ poll_attempts w' = 10%nat ∧ slept w' = 10.
Proof.
  set (client := Script.client _ _).
  assert (∀ j, (j < 10)%nat →
               pending (post_json client (length (posted start) + 1 + j)
                          (poll_request Script.box "operation-1")) = true)
    as Hpending
    by (intros j Hj; do 10 (destruct j as [|j]; [reflexivity|]); lia).
  destruct (execute_operation_ten_pending client Script.box "terminal"
              RefreshStateOperation.__init__ [] "operation-1" start
              eq_refl eq_refl Hpending)
    as (w' & Hrun & Hposted & Hslept & _).
  exists w'. split; [exact Hrun|]. split; [|exact Hslept].
  unfold poll_attempts. rewrite Hposted. reflexivity.
Defined.

(** ** The entities that call the codec *)

Section entities.
Implicit Types (properties : DeviceProperties.t) (preset : string).

(** Case analysis on the comparisons of [key] with the keys of a dict. *)
Local Ltac by_cases_on_key key :=
  repeat match goal with
         | |- context [String.eqb ?k key] =>
             destruct (String.eqb_spec k key) as [<-|?]; cbn in *; try done
         | H : context [String.eqb ?k key] |- _ =>
             destruct (String.eqb_spec k key) as [<-|?]; cbn in *; try done
         end.

Local Ltac in_list :=
  repeat first [apply list_elem_of_here | apply list_elem_of_further].

(** X18. Setting a preset and reading it back: for each of the eight preset
    names, [async_set_preset_mode] hands over a mode command that builds,
    and once the device reports the state of that blob, [preset_mode]
    returns the same name. For any other name no command is executed. *)
Theorem fan_preset_round_trip preset :
  (preset ∈ SharpIoTFan.PRESET_MODES →
   ∃ command blob f3_property,
     SharpIoTFan.async_set_preset_mode preset = Some command
     ∧ DeviceStatusCommand.build_payload command = Ok blob
     ∧ F3Property.from_hex blob = Ok f3_property
     ∧ ∀ echonet_node label f1_property f2_property,
         SharpIoTFan.preset_mode
           (Some (DeviceProperties.mk echonet_node label f1_property
                    f2_property (Some f3_property)))
         = Some preset)
  ∧ (preset ∉ SharpIoTFan.PRESET_MODES →
     SharpIoTFan.async_set_preset_mode preset = None).
Proof.
  split.
  - unfold SharpIoTFan.PRESET_MODES. intros Hin.
    repeat (apply elem_of_cons in Hin as [->|Hin]);
      [by eexists _, _, _; repeat split; reflexivity.. |].
    by apply elem_of_nil in Hin.
  - intros Hnot. unfold SharpIoTFan.async_set_preset_mode,
      SharpIoTFan.PRESET_TO_MODE. cbn [dict_get].
    repeat match goal with
           | |- context [String.eqb ?k preset] =>
               destruct (String.eqb_spec k preset) as [Heq|?];
                 [exfalso; apply Hnot; rewrite <- Heq;
                  unfold SharpIoTFan.PRESET_MODES; in_list|]
           end.
    done.
Qed.

(** The preset "pollen", and a name that is no preset. *)
Lemma fan_preset_round_trip_witness :
  (∃ command, SharpIoTFan.async_set_preset_mode "pollen" = Some command)
  ∧ SharpIoTFan.async_set_preset_mode "turbo" = None.
Proof.
  split.
  - destruct (proj1 (fan_preset_round_trip "pollen"))
      as (command & _ & _ & Hcommand & _);
      [unfold SharpIoTFan.PRESET_MODES; in_list|].
    by exists command.
  - apply (fan_preset_round_trip "turbo").
    unfold SharpIoTFan.PRESET_MODES. intros Hin.
    repeat (apply elem_of_cons in Hin as [[=]|Hin]). by apply elem_of_nil in Hin.
Defined.

(** The loop over the items of the table inverts the lookup by key. *)
Lemma first_preset_inverts_table (mode : OperatingMode.t) preset :
  SharpIoTFan.first_preset SharpIoTFan.PRESET_TO_MODE mode = Some preset
  ↔ dict_get SharpIoTFan.PRESET_TO_MODE preset = Some mode.
Proof.
  split.
  - intros Hfirst. destruct mode; vm_compute in Hfirst;
      try discriminate Hfirst; injection Hfirst as <-; reflexivity.
  - unfold SharpIoTFan.PRESET_TO_MODE. cbn [dict_get].
    repeat match goal with
           | |- context [String.eqb ?k preset] =>
               destruct (String.eqb_spec k preset) as [<-|?];
                 [intros [= <-]; reflexivity|]
           end.
    done.
Qed.

(** X19. What the fan shows: with an F3 snapshot at hand, [preset_mode]
    returns a name exactly when the table maps that name to the operating
    mode of the device and the mode is not OFF, and it returns [None]
    exactly when the mode is OFF. So every mode but OFF is shown, under the
    one name that selects it. *)
Theorem fan_preset_mode_inverts_table properties f3_property preset :
  DeviceProperties.f3_property properties = Some f3_property →
  (SharpIoTFan.preset_mode (Some properties) = Some preset
   ↔ dict_get SharpIoTFan.PRESET_TO_MODE preset
     = Some (F3Property.operating_mode f3_property)
     ∧ F3Property.operating_mode f3_property ≠ OperatingMode.OFF)
  ∧ (SharpIoTFan.preset_mode (Some properties) = None
     ↔ F3Property.operating_mode f3_property = OperatingMode.OFF).
Proof.
  intros Hf3. unfold SharpIoTFan.preset_mode. rewrite Hf3. cbv zeta.
  case_bool_decide as Hoff.
  - split; [|done]. split; [done | by intros [_ ?]].
  - rewrite first_preset_inverts_table. split; [tauto|].
    split; [|done]. intros Hnone.
    by destruct (F3Property.operating_mode f3_property); vm_compute in Hnone.
Qed.

(** A device in mode SLEEP shows the preset "sleep". *)
Lemma fan_preset_mode_inverts_table_witness :
  let f3_property :=
    F3Property.mk OperatingMode.SLEEP HumidificationState.OFF PowerState.ON
      ChildLockState.OFF LEDBrightnessState.OFF in
  SharpIoTFan.preset_mode
    (Some (DeviceProperties.mk "node" "label" None None (Some f3_property)))
  = Some "sleep".
Proof.
  intros f3_property.
  apply (fan_preset_mode_inverts_table
           (DeviceProperties.mk "node" "label" None None (Some f3_property))
           f3_property "sleep" eq_refl).
  split; [reflexivity | discriminate].
Defined.


(** A blob that decodes has 54 characters once it is stripped. *)
Lemma from_hex_Ok_length hex_string f3_property :
  F3Property.from_hex hex_string = Ok f3_property →
  Py.len (Py.strip hex_string) = 54.
Proof.
  unfold F3Property.from_hex.
  by destruct (Z.eqb_spec (Py.len (Py.strip hex_string)) 54).
Qed.

(** X20. The four switches show the fields that the commands write: for a
    snapshot decoded from any blob, the power switch is on exactly when
    the field at position 18 of the field area is ["FF"], the
    humidification switch when the field at 22 is ["FF"], the child lock
    switch when the field at 28 is ["FF"], and the LED switch whenever the
    field at 44 is not ["00"], dimmed included. *)
Theorem switches_show_decoded_fields hex_string f3_property properties :
  F3Property.from_hex hex_string = Ok f3_property →
  DeviceProperties.f3_property properties = Some f3_property →
  let payload := Py.slice_from (Py.strip hex_string) 8 in
  SharpPowerSwitch.is_on (Some properties)
  = Some (String.eqb (Py.slice payload 18 20) "FF")
  ∧ SharpHumidificationSwitch.is_on (Some properties)
    = Some (String.eqb (Py.slice payload 22 24) "FF")
  ∧ SharpChildLockSwitch.is_on (Some properties)
    = Some (String.eqb (Py.slice payload 28 30) "FF")
  ∧ SharpLEDBrightnessSwitch.is_on (Some properties)
    = Some (negb (String.eqb (Py.slice payload 44 46) "00")).
Proof.
  intros Hdecode Hf3 payload.
  pose proof (from_hex_Ok_length _ _ Hdecode) as Hlen.
  apply (from_hex_of_length_54 _ _ Hlen) in Hdecode
    as (_ & Hpower & Hhumidification & Hlock & Hled).
  fold payload in Hpower, Hhumidification, Hlock, Hled.
  unfold SharpPowerSwitch.is_on, SharpHumidificationSwitch.is_on,
    SharpChildLockSwitch.is_on, SharpLEDBrightnessSwitch.is_on.
  rewrite Hf3, <- Hpower, <- Hhumidification, <- Hlock, <- Hled.
  by destruct (F3Property.power f3_property),
    (F3Property.humidification f3_property),
    (F3Property.child_lock f3_property),
    (F3Property.led_brightness f3_property).
Qed.

(** A device that is on, with the child lock set and the LEDs dimmed. *)
Lemma switches_show_decoded_fields_witness :
  let f3_property :=
    F3Property.mk OperatingMode.AUTO HumidificationState.OFF PowerState.ON
      ChildLockState.ON LEDBrightnessState.DIM in
  let properties :=
    DeviceProperties.mk "node" "label" None None (Some f3_property) in
  SharpPowerSwitch.is_on (Some properties) = Some true
  ∧ SharpHumidificationSwitch.is_on (Some properties) = Some false
  ∧ SharpChildLockSwitch.is_on (Some properties) = Some true
  ∧ SharpLEDBrightnessSwitch.is_on (Some properties) = Some true.
Proof.
  intros f3_property properties.
  exact (switches_show_decoded_fields
           "00000000100000000000000000FF00000000FF0000000000000010"
           f3_property properties eq_refl eq_refl).
Defined.

(** X21. The water level sensor reports a problem exactly when byte 18 of
    the F2 blob is 2: for every valid hexadecimal blob with at least 19
    bytes, [is_on] on the decoded snapshot is [True] when that byte is 2
    and [False] for every other value. *)
Theorem water_level_sensor_reads_byte_18 hex_string (data : list Z) (b : Z)
    properties f2_property :
  Py.fromhex (Py.strip hex_string) = Ok data →
  data !! 18%nat = Some b →
  F2Property.from_hex hex_string = Ok f2_property →
  DeviceProperties.f2_property properties = Some f2_property →
  SharpWaterLevelSensor.is_on (Some properties) = Some (b =? 2).
Proof.
  intros Hdata Hbyte Hdecode Hf2.
  unfold F2Property.from_hex in Hdecode. rewrite Hdata in Hdecode.
  injection Hdecode as <-.
  unfold SharpWaterLevelSensor.is_on. rewrite Hf2.
  cbn [F2Property.water_container]. rewrite from_bytes_big_one, Hbyte.
  change (default 0 (Some b)) with b. unfold WaterContainerState.parse.
  by destruct (Z.eqb_spec b 0), (Z.eqb_spec b 1), (Z.eqb_spec b 2);
    try lia.
Qed.

(** A blob whose byte 18 is 2: the container is empty. *)
Lemma water_level_sensor_reads_byte_18_witness :
  ∃ f2_property,
    F2Property.from_hex "00000000000000000000000000001026004C02" = Ok f2_property
    ∧ SharpWaterLevelSensor.is_on
        (Some (DeviceProperties.mk "node" "label" None (Some f2_property) None))
      = Some true.
Proof.
  set (hex_string := "00000000000000000000000000001026004C02").
  destruct (Py.fromhex (Py.strip hex_string)) as [data|] eqn:Hdata;
    [|discriminate Hdata].
  destruct (F2Property.from_hex hex_string) as [f2_property|] eqn:Hdecode;
    [|discriminate Hdecode].
  exists f2_property. split; [reflexivity|].
  apply (water_level_sensor_reads_byte_18 hex_string data 2 _ f2_property Hdata);
    [|exact Hdecode | reflexivity].
  injection Hdata as <-. reflexivity.
Defined.

End entities.

(** ** The HTTP client *)

Section http_client.
Context {J : Type}.
Implicit Types (params headers : option (gmap string string)) (json : option J)
  (session : Client.call J → option (Client.response J)).

Lemma lookup_setdefault (key value other : string) (d : gmap string string) :
  Client.setdefault key value d !! other
  = if decide (other = key) then Some (default value (d !! key)) else d !! other.
Proof.
  unfold Client.setdefault. case_decide as Hkey.
  - subst other. destruct (d !! key) as [v|] eqn:Hd; simpl; [done|].
    by rewrite lookup_insert_eq.
  - destruct (d !! key); [done|]. by rewrite lookup_insert_ne.
Qed.

(** X22. What [post] sends. The parameter [appSecret] is always the module's
    own secret, whatever the caller passed under that key, and every other
    parameter of the caller is sent as it is. A [Content-Type] or [Accept]
    header of the caller is kept, and is set to the JSON default when the
    caller gave none; all other headers are sent as they are. A missing
    body is the empty object. *)
Theorem post_call_arguments (empty_object : J) url params headers json :
  let sent := Client.post_call empty_object url params headers json in
  Client.url sent = url
  ∧ Client.json sent = Some (default empty_object json)
  ∧ Client.params sent !! "appSecret" = Some Client.APP_SECRET
  ∧ (∀ key, key ≠ "appSecret" →
       Client.params sent !! key = default ∅ params !! key)
  ∧ Client.headers sent !! "Content-Type"
    = Some (default "application/json; charset=utf-8"
              (default ∅ headers !! "Content-Type"))
  ∧ Client.headers sent !! "Accept"
    = Some (default "application/json" (default ∅ headers !! "Accept"))
  ∧ (∀ key, key ≠ "Content-Type" → key ≠ "Accept" →
       Client.headers sent !! key = default ∅ headers !! key).
Proof.
  cbv zeta. unfold Client.post_call.
  cbn [Client.url Client.json Client.params Client.headers].
  split; [done|]. split; [done|]. split; [by rewrite lookup_insert_eq|].
  split; [by intros key Hkey; rewrite lookup_insert_ne|].
  rewrite !lookup_setdefault.
  split; [by rewrite decide_False, decide_True by done|].
  split; [rewrite decide_True by done; by rewrite decide_False|].
  intros key Hcontent Haccept. by rewrite !lookup_setdefault, !decide_False.
Qed.

(** X23. [post_json] returns a value exactly when the session answers, the
    status code is outside [400, 600) and the body is JSON; it then returns
    the parsed body. No answer, an error status and a body that is not JSON
    each raise, and nothing is retried. *)
Theorem post_json_outcome session (empty_object : J) url params headers json :
  let sent := Client.post_call empty_object url params headers json in
  (∀ value,
     Client.post_json session empty_object url params headers json
     = Client.Done value
     ↔ ∃ r, session sent = Some r
            ∧ ¬ (400 ≤ Client.status_code r < 600)
            ∧ Client.body r = Some value)
  ∧ (session sent = None →
     Client.post_json session empty_object url params headers json
     = Client.Failed Client.RequestException)
  ∧ (∀ r, session sent = Some r → 400 ≤ Client.status_code r < 600 →
          Client.post_json session empty_object url params headers json
          = Client.Failed (Client.HTTPError (Client.status_code r)))
  ∧ (∀ r, session sent = Some r → ¬ (400 ≤ Client.status_code r < 600) →
          Client.body r = None →
          Client.post_json session empty_object url params headers json
          = Client.Failed Client.JSONValueError).
Proof.
  cbv zeta. unfold Client.post_json, Client.post.
  destruct (session _) as [r|] eqn:Hsession.
  2: { split; [intros value; split; [done | by intros (r & [=] & _)]|].
       split; [done|]. split; intros r [=]. }
  unfold Client.raise_for_status.
  destruct (decide (400 ≤ Client.status_code r < 600)) as [Hbad|Hgood].
  - rewrite (proj2 (Z.leb_le 400 _)), (proj2 (Z.ltb_lt _ 600)) by lia.
    cbn [andb].
    split. { intros value. split; [done|]. by intros (r' & [= <-] & Hs & _). }
    split; [done|]. split; [by intros r' [= <-] _|]. by intros r' [= <-] Hs.
  - assert ((400 <=? Client.status_code r) && (Client.status_code r <? 600)
            = false) as ->.
    { destruct (Z.leb_spec 400 (Client.status_code r)),
        (Z.ltb_spec (Client.status_code r) 600); cbn [andb]; try done; lia. }
    unfold Client.response_json.
    split.
    { intros value. split.
      - destruct (Client.body r) eqn:Hbody; [|done]. intros [= <-]. by exists r.
      - by intros (r' & [= <-] & _ & ->). }
    split; [done|]. split; [by intros r' [= <-] Hs|].
    by intros r' [= <-] _ ->.
Qed.

End http_client.

(** A caller that passes its own [appSecret] and [Accept]. *)
Lemma post_call_arguments_witness :
  let params : gmap string string :=
    {["appSecret" := "mine"; "boxId" := "box-1"]} in
  let headers : gmap string string := {["Accept" := "text/plain"]} in
  let sent := Client.post_call "{}" "https://host/" (Some params) (Some headers)
                (Some "{1}") in
  Client.params sent !! "appSecret" = Some Client.APP_SECRET
  ∧ Client.params sent !! "boxId" = Some "box-1"
  ∧ Client.headers sent !! "Accept" = Some "text/plain"
  ∧ Client.headers sent !! "Content-Type"
    = Some "application/json; charset=utf-8".
Proof.
  intros params headers sent.
  destruct (post_call_arguments "{}" "https://host/" (Some params)
              (Some headers) (Some "{1}"))
    as (_ & _ & Hsecret & Hparams & Hcontent & Haccept & _).
  split; [exact Hsecret|]. split; [|split].
  - etrans; [apply (Hparams "boxId"); discriminate | reflexivity].
  - etrans; [exact Haccept | reflexivity].
  - etrans; [exact Hcontent | reflexivity].
Defined.

(** A session that answers every call with the status 503. *)
Lemma post_json_outcome_witness :
  Client.post_json
    (λ _, Some {| Client.status_code := 503; Client.body := Some "{}" |})
    "{}" "https://host/" None None None
  = Client.Failed (Client.HTTPError 503).
Proof.
  destruct (post_json_outcome
              (λ _, Some {| Client.status_code := 503; Client.body := Some "{}" |})
              "{}" "https://host/" None None None)
    as (_ & _ & Hstatus & _).
  apply (Hstatus {| Client.status_code := 503; Client.body := Some "{}" |});
    [reflexivity | cbn; lia].
Defined.

(** ** The coordinator *)

Section coordinator.
Context {Op : Type} `{!Operation Op}.
Implicit Types (client : SharpClient) (devices : list BoxInfo)
  (operation : Op) (w : world).

(** The search returns the first device with the box id asked for. *)
Lemma find_device_first (before after : list BoxInfo) (device : BoxInfo) :
  Forall (λ dev, box_id dev ≠ box_id device) before →
  SharpIoTDataUpdateCoordinator.find_device (before ++ device :: after)
    (box_id device)
  = Some device.
Proof.
  induction 1 as [|dev before Hdev _ IH]; simpl.
  - by rewrite String.eqb_refl.
  - by rewrite (proj2 (String.eqb_neq _ _) Hdev).
Qed.

Lemma find_device_unknown devices device_id :
  Forall (λ dev, box_id dev ≠ device_id) devices →
  SharpIoTDataUpdateCoordinator.find_device devices device_id = None.
Proof.
  induction 1 as [|dev devices Hdev _ IH]; simpl; [done|].
  by rewrite (proj2 (String.eqb_neq _ _) Hdev).
Qed.

(** X24. [async_execute_command] never lets an exception out and asks for
    a refresh exactly when it returns [True]. For a device id that no
    device has it returns [False] and posts nothing. When the status list
    of the operation cannot be built it also returns [False] and posts
    nothing. Otherwise it returns what [execute_operation] returns for the
    first device with that box id. *)
Theorem async_execute_command_effects client devices terminal_id device_id
    operation w :
  let call :=
    SharpIoTDataUpdateCoordinator.async_execute_command client devices
      terminal_id device_id operation w in
  SharpIoTDataUpdateCoordinator.refresh_requested call.2 = call.1
  ∧ (Forall (λ dev, box_id dev ≠ device_id) devices →
     call.1 = false ∧ SharpIoTDataUpdateCoordinator.transport call.2 = w)
  ∧ (∀ e, get_status_list operation = Raise e →
          call.1 = false ∧ SharpIoTDataUpdateCoordinator.transport call.2 = w)
  ∧ (∀ before device after success w',
       devices = before ++ device :: after →
       Forall (λ dev, box_id dev ≠ device_id) before →
       box_id device = device_id →
       SharpOperations.execute_operation client device terminal_id operation w
       = (Ok success, w') →
       call.1 = success ∧ SharpIoTDataUpdateCoordinator.transport call.2 = w').
Proof.
  cbv zeta. unfold SharpIoTDataUpdateCoordinator.async_execute_command.
  split; [|split; [|split]].
  - destruct (SharpIoTDataUpdateCoordinator.find_device _ _) as [device|];
      [|done].
    by destruct (SharpOperations.execute_operation _ _ _ _ _) as [[success|e] w'].
  - intros Hunknown. by rewrite (find_device_unknown _ _ Hunknown).
  - intros e Hraise.
    destruct (SharpIoTDataUpdateCoordinator.find_device _ _) as [device|];
      [|done].
    unfold SharpOperations.execute_operation. by rewrite Hraise.
  - intros before device after success w' -> Hbefore <- Hrun.
    by rewrite (find_device_first _ _ _ Hbefore), Hrun.
Qed.

End coordinator.

(** Two devices; a command for a third box id. *)
Lemma async_execute_command_effects_witness :
  let other :=
    {| box_id := "box-2"; echonet_node := "node"; echonet_object := "object";
       deviceId := "device-2"; terminals := [] |} in
  SharpIoTDataUpdateCoordinator.async_execute_command
    (Script.client (Script.submitted "operation-1")
       [Script.outcome "success" None])
    [Script.box; other] "terminal" "box-3" RefreshStateOperation.__init__ start
  = (false, {| SharpIoTDataUpdateCoordinator.refresh_requested := false;
               SharpIoTDataUpdateCoordinator.transport := start |}).
Proof.
  intros other.
  destruct (async_execute_command_effects
              (Script.client (Script.submitted "operation-1")
                 [Script.outcome "success" None])
              [Script.box; other] "terminal" "box-3"
              RefreshStateOperation.__init__ start)
    as (Hrefresh & Hunknown & _).
  destruct Hunknown as [Hvalue Hworld]; [by repeat constructor|].
  destruct (SharpIoTDataUpdateCoordinator.async_execute_command _ _ _ _ _ _)
    as [value [refresh world]].
  cbn in Hrefresh, Hvalue, Hworld. by rewrite Hvalue in *; subst.
Defined.

(** ** White space around a blob *)

Section white_space.
Implicit Types (s before after : string).

Lemma lstrip_white_space_app before s :
  white_space before = true → Py.lstrip (before +:+ s) = Py.lstrip s.
Proof.
  induction before as [|c before IH]; simpl; [done|].
  intros [-> Hbefore]%andb_true_iff. by apply IH.
Qed.

Lemma rstrip_white_space after :
  white_space after = true → Py.rstrip after = "".
Proof.
  induction after as [|c after IH]; simpl; [done|].
  intros [-> Hafter]%andb_true_iff. by rewrite IH.
Qed.

Lemma rstrip_app_white_space s after :
  white_space after = true → Py.rstrip (s +:+ after) = Py.rstrip s.
Proof.
  intros Hafter. induction s as [|c s IH]; simpl.
  - by apply rstrip_white_space.
  - by rewrite IH.
Qed.

Lemma strip_app_white_space s after :
  white_space after = true → Py.strip (s +:+ after) = Py.strip s.
Proof.
  intros Hafter. unfold Py.strip. induction s as [|c s IH]; simpl.
  - rewrite rstrip_white_space; [done|].
    clear -Hafter. induction after as [|c after IH]; simpl; [done|].
    apply andb_true_iff in Hafter as [-> Hafter]. by apply IH.
  - destruct (Py.isspace c); [done|].
    by rewrite <- (rstrip_app_white_space (String c s) after Hafter).
Qed.

Lemma strip_surrounded before s after :
  white_space before = true → white_space after = true →
  Py.strip (before +:+ s +:+ after) = Py.strip s.
Proof.
  intros Hbefore Hafter. unfold Py.strip.
  rewrite lstrip_white_space_app by done. by apply strip_app_white_space.
Qed.

(** X25. White space around a blob changes nothing: each of the three
    decoders gives the same result, value or exception, for a blob and for
    the blob with any white space before and after it. *)
Theorem decoders_ignore_surrounding_white_space before s after :
  white_space before = true → white_space after = true →
  F1Property.from_hex (before +:+ s +:+ after) = F1Property.from_hex s
  ∧ F2Property.from_hex (before +:+ s +:+ after) = F2Property.from_hex s
  ∧ F3Property.from_hex (before +:+ s +:+ after) = F3Property.from_hex s.
Proof.
  intros Hbefore Hafter.
  unfold F1Property.from_hex, F2Property.from_hex, F3Property.from_hex.
  by rewrite (strip_surrounded _ _ _ Hbefore Hafter).
Qed.

End white_space.

(** A power-on blob between a tab and a line end. *)
Lemma decoders_ignore_surrounding_white_space_witness :
  let blob := "00020000000000000000000000FF00000000000000000000000000" in
  let tab := String (ascii_of_nat 9) "" in
  let line_end := String (ascii_of_nat 13) (String (ascii_of_nat 10) "") in
  F3Property.from_hex (tab +:+ blob +:+ line_end) = F3Property.from_hex blob.
Proof.
  intros blob tab line_end.
  apply (decoders_ignore_surrounding_white_space tab blob line_end);
    reflexivity.
Defined.
